(** * passport-cas: the CAS strategy of [src/index.js], embedded in Rocq

    The development follows the source file top-down:

    - [Js]: the JavaScript values the strategy manipulates (results of the
      XML parser, query objects, errors), with the handful of language
      operations the source relies on (truthiness, property reads that
      throw on [undefined], string conversion, [String.prototype.split]).
    - [Querystring] and [Platform]: the library functions the strategy
      calls but does not define.  [querystring.stringify] and the assembly
      of [url.format] are written out after Node's sources; the URL
      parsers, [util.format], [xml2js], [underscore], [toLowerCase] and
      passport's [req.logout] are parameters.
    - the [Strategy] record, its constructor, [service], the three
      [_validate] parsers, [verified] and [authenticate] with the handlers it
      registers on the outbound request.

    Exceptions are explicit: a computation that may throw returns [exn A]. *)

From Stdlib Require Import String Ascii List Bool Arith NArith Lia.
From Stdlib Require Import DecimalString Sorted.
Import ListNotations.
Open Scope string_scope.

(* ------------------------------------------------------------------ *)
(** ** JavaScript values                                               *)
(* ------------------------------------------------------------------ *)

Module Js.

(** Values reachable in the strategy.  Numbers never occur: xml2js yields
    strings, objects and arrays; query strings parse to strings and arrays;
    [JErr m] is an [Error] object whose [message] is [m]. *)
#[warnings="-register-all"]
Inductive jsval : Type :=
| JUndef
| JNull
| JBool (b : bool)
| JStr (s : string)
| JErr (message : string)
| JObj (fields : list (string * jsval))
| JArr (items : list jsval).

(** A plain object: its own enumerable string keys with their values, in
    insertion order.  [enumerate] below gives the order in which
    JavaScript visits them. *)
Definition obj := list (string * jsval).

(** Thrown values.  [TypeError] is what the engine and Node raise on a
    property read of [undefined]/[null], a call of a non-function or a
    non-string argument to [url.parse]; [Error m] is [new Error(m)]. *)
Inductive exception : Type :=
| TypeError
| Error (message : string).

Inductive exn (A : Type) : Type :=
| Ok (a : A)
| Throw (e : exception).
Arguments Ok {A} a.
Arguments Throw {A} e.

Definition bind {A B} (m : exn A) (f : A -> exn B) : exn B :=
  match m with
  | Ok a => f a
  | Throw e => Throw e
  end.

Declare Scope exn_scope.
Delimit Scope exn_scope with exn.
Notation "x <- m ;; k" := (bind m (fun x => k))
  (at level 61, m at next level, right associativity) : exn_scope.

(** ToBoolean. *)
Definition truthy (v : jsval) : bool :=
  match v with
  | JUndef | JNull => false
  | JBool b => b
  | JStr s => negb (String.eqb s EmptyString)
  | JErr _ | JObj _ | JArr _ => true
  end.

(** [a || b] *)
Definition or_else (a b : jsval) : jsval := if truthy a then a else b.

(** ToString, as used by [+] with a string operand and by template
    literals. *)
Fixpoint to_string (v : jsval) : string :=
  match v with
  | JUndef => "undefined"
  | JNull => "null"
  | JBool b => if b then "true" else "false"
  | JStr s => s
  | JErr m => if String.eqb m EmptyString then "Error" else "Error: " ++ m
  | JObj _ => "[object Object]"
  | JArr items =>
      (fix join (l : list jsval) : string :=
         match l with
         | [] => EmptyString
         | x :: rest =>
             let e := match x with
                      | JUndef | JNull => EmptyString
                      | _ => to_string x
                      end in
             match rest with
             | [] => e
             | _ :: _ => e ++ "," ++ join rest
             end
         end) items
  end.

(** Own-property lookup in a plain object. *)
Fixpoint obj_get (k : string) (o : obj) : jsval :=
  match o with
  | [] => JUndef
  | (k', v) :: rest => if String.eqb k k' then v else obj_get k rest
  end.

(** [o[k] = v]: overwrite in place, or append a new key. *)
Fixpoint obj_set (k : string) (v : jsval) (o : obj) : obj :=
  match o with
  | [] => [(k, v)]
  | (k', v') :: rest =>
      if String.eqb k k' then (k', v) :: rest else (k', v') :: obj_set k v rest
  end.

(** [delete o[k]] *)
Definition obj_delete (k : string) (o : obj) : obj :=
  filter (fun kv => negb (String.eqb k (fst kv))) o.

Definition has_key (k : string) (o : obj) : bool :=
  existsb (fun kv => String.eqb k (fst kv)) o.

(** Property read [v.k] / [v[k]].  Sound for the property names the source
    reads ([envelope], [body], [response], [status], [statuscode], [$],
    [Value], [assertion], [attributestatement], [attribute],
    [AttributeName], [attributevalue], [authenticationstatement],
    [subject], [nameidentifier], [serviceresponse],
    [authenticationfailure], [authenticationsuccess], [code],
    [loginParams], [RelayState]): none of them
    is inherited from a prototype, so a primitive, an array or an error
    answers [undefined]. *)
Definition get (v : jsval) (k : string) : exn jsval :=
  match v with
  | JUndef | JNull => Throw TypeError
  | JObj fields => Ok (obj_get k fields)
  | JErr m => Ok (if String.eqb k "message" then JStr m else JUndef)
  | JBool _ | JStr _ | JArr _ => Ok JUndef
  end.

(** Chained property read [v.k1.k2...]. *)
Fixpoint get_path (v : jsval) (path : list string) : exn jsval :=
  match path with
  | [] => Ok v
  | k :: rest => bind (get v k) (fun w => get_path w rest)
  end.

(** [s.split(sep)] for a one-character separator: never empty. *)
Fixpoint split (sep : ascii) (s : string) : list string :=
  match s with
  | EmptyString => [EmptyString]
  | String c rest =>
      if Ascii.eqb c sep then EmptyString :: split sep rest
      else match split sep rest with
           | [] => [String c EmptyString]
           | h :: t => String c h :: t
           end
  end.

(** [a[i]] on an array of strings. *)
Definition index (a : list string) (i : nat) : jsval :=
  match nth_error a i with
  | Some s => JStr s
  | None => JUndef
  end.

(** [v === s] for a string literal [s]. *)
Definition strict_eq_str (v : jsval) (s : string) : bool :=
  match v with
  | JStr s' => String.eqb s' s
  | _ => false
  end.

(** [s] ends with [suffix]: the test [/suffix$/] for a literal suffix. *)
Fixpoint ends_with (suffix s : string) : bool :=
  if String.eqb s suffix then true
  else match s with
       | EmptyString => false
       | String _ rest => ends_with suffix rest
       end.

(** [v.match(/Success$/)]: a match array or [null]; calling [match] on
    [undefined]/[null] or on a value that has no such method throws. *)
Definition match_Success (v : jsval) : exn jsval :=
  match v with
  | JStr s => Ok (if ends_with "Success" s then JArr [JStr "Success"] else JNull)
  | _ => Throw TypeError
  end.

Definition string_of_nat (n : nat) : string :=
  NilEmpty.string_of_uint (Nat.to_uint n).

Fixpoint indexed {A} (i : nat) (l : list A) : list (string * A) :=
  match l with
  | [] => []
  | x :: rest => (string_of_nat i, x) :: indexed (S i) rest
  end.

Fixpoint chars (s : string) : list jsval :=
  match s with
  | EmptyString => []
  | String c rest => JStr (String c EmptyString) :: chars rest
  end.

(** The array index a key spells, if it spells one: a decimal numeral
    without sign or leading zero, below 2^32 - 1. *)
Definition array_index (k : string) : option N :=
  match NilEmpty.uint_of_string k with
  | Some u =>
      let n := N.of_uint u in
      if String.eqb (NilEmpty.string_of_uint (N.to_uint n)) k
         && (n <? 4294967295)%N
      then Some n else None
  | None => None
  end.

Fixpoint insert_by_index (i : N) (kv : string * jsval)
    (l : list (N * (string * jsval))) : list (N * (string * jsval)) :=
  match l with
  | [] => [(i, kv)]
  | (j, kv') :: rest =>
      if (i <? j)%N then (i, kv) :: l else (j, kv') :: insert_by_index i kv rest
  end.

Definition by_index (o : obj) : list (N * (string * jsval)) :=
  fold_left
    (fun sorted kv =>
       match array_index (fst kv) with
       | Some i => insert_by_index i kv sorted
       | None => sorted
       end) o [].

(** The own properties in the order [Object.keys] and [for...in] visit
    them: array indices first, ascending, then the other keys in insertion
    order. *)
Definition enumerate (o : obj) : obj :=
  (map snd (by_index o)
   ++ filter (fun kv => match array_index (fst kv) with
                        | Some _ => false
                        | None => true
                        end) o)%list.

(** The (key, value) pairs a [for (k in v)] loop visits, with [v[k]]. *)
Definition for_in (v : jsval) : list (string * jsval) :=
  match v with
  | JObj fields => enumerate fields
  | JArr items => indexed 0 items
  | JStr s => indexed 0 (chars s)
  | JUndef | JNull | JBool _ | JErr _ => []
  end.

End Js.
Import Js.
Open Scope exn_scope.

(* ------------------------------------------------------------------ *)
(** ** [querystring.stringify]                                         *)
(* ------------------------------------------------------------------ *)

(** Node's [querystring.stringify] with its default separators.  Strings
    are sequences of UTF-8 bytes, so [escape] works byte by byte. *)
Module Querystring.

Definition hex_digit (n : nat) : ascii :=
  nth n (list_ascii_of_string "0123456789ABCDEF") "0"%char.

(** The characters [escape] leaves alone: letters, digits and
    [-_.!~*'()]. *)
Definition unreserved (c : ascii) : bool :=
  let n := nat_of_ascii c in
  ((48 <=? n) && (n <=? 57) || (65 <=? n) && (n <=? 90)
   || (97 <=? n) && (n <=? 122))%nat
  || existsb (Ascii.eqb c) (list_ascii_of_string "-_.!~*'()").

(** [querystring.escape] *)
Fixpoint escape (s : string) : string :=
  match s with
  | EmptyString => EmptyString
  | String c rest =>
      if unreserved c then String c (escape rest)
      else
        let n := nat_of_ascii c in
        String "%" (String (hex_digit (n / 16)) (String (hex_digit (n mod 16))
                                                       (escape rest)))
  end.

(** [stringifyPrimitive]: strings and booleans are printed, any other
    value gives the empty string. *)
Definition stringifyPrimitive (v : jsval) : string :=
  match v with
  | JStr s => s
  | JBool b => if b then "true" else "false"
  | _ => EmptyString
  end.

Definition join (sep : string) (l : list string) : string :=
  match l with
  | [] => EmptyString
  | x :: rest => fold_left (fun acc y => acc ++ sep ++ y) rest x
  end.

(** The fields one key contributes: one per element for an array (none
    for an empty one), one otherwise. *)
Definition fields (kv : string * jsval) : list string :=
  let ks := escape (fst kv) ++ "=" in
  match snd kv with
  | JArr items => map (fun x => ks ++ escape (stringifyPrimitive x)) items
  | v => [ks ++ escape (stringifyPrimitive v)]
  end.

Definition stringify (q : obj) : string :=
  join "&" (flat_map fields (enumerate q)).

End Querystring.

(* ------------------------------------------------------------------ *)
(** ** Library functions used by the strategy                          *)
(* ------------------------------------------------------------------ *)

(** The object built by Node's [url.parse] and consumed by [url.format].
    [Q] is the type of [query]: an object when the query string is parsed
    ([url.parse(u, true)]), any value otherwise. *)
Record UrlObject (Q : Type) : Type := mkUrl {
  protocol : jsval;
  slashes : jsval;
  auth : jsval;
  host : jsval;
  port : jsval;
  hostname : jsval;
  hash : jsval;
  search : jsval;
  query : Q;
  pathname : jsval;
  path : jsval;
  href : jsval
}.
Arguments mkUrl {Q}.
Arguments protocol {Q}.
Arguments slashes {Q}.
Arguments auth {Q}.
Arguments host {Q}.
Arguments port {Q}.
Arguments hostname {Q}.
Arguments hash {Q}.
Arguments search {Q}.
Arguments query {Q}.
Arguments pathname {Q}.
Arguments path {Q}.
Arguments href {Q}.

(** [u.query = q] *)
Definition set_query {Q Q'} (u : UrlObject Q) (q : Q') : UrlObject Q' :=
  mkUrl (protocol u) (slashes u) (auth u) (host u) (port u) (hostname u)
        (hash u) (search u) q (pathname u) (path u) (href u).

(** [delete u.search] *)
Definition delete_search {Q} (u : UrlObject Q) : UrlObject Q :=
  mkUrl (protocol u) (slashes u) (auth u) (host u) (port u) (hostname u)
        (hash u) JUndef (query u) (pathname u) (path u) (href u).

(** The object literal [{ pathname: p, query: q }]. *)
Definition path_and_query (p : jsval) (q : obj) : UrlObject obj :=
  mkUrl JUndef JUndef JUndef JUndef JUndef JUndef JUndef JUndef q p JUndef JUndef.

(** What [xml2js.parseString] hands to its callback: [err], or the parsed
    document as nested objects. *)
Inductive xml_parse : Type :=
| XmlError
| XmlResult (result : jsval).

(** The fields of the incoming request the strategy reads; [req_query] is
    [req.query], an object under Express and [undefined] where no
    middleware has set it. *)
Record Request : Type := mkRequest {
  originalUrl : jsval;
  url : jsval;
  req_query : jsval
}.

(** Functions the strategy calls and does not define.  The URL functions
    of Node throw on a string they cannot take ([ERR_INVALID_URL], a
    [TypeError]).  [format_location] is the part [protocol + host +
    pathname] of what [url.format] returns, a function of the fields
    [protocol], [slashes], [auth], [host], [port], [hostname] and
    [pathname].  [parseString] stands for [xml2js.parseString] under the
    strategy's [xmlParseOpts]; [each_values c] lists the values
    [_.each(c, f)] passes to [f]; [lower_case] is
    [String.prototype.toLowerCase]; [logout req] is what [req.logout()],
    which passport adds to the request, throws when called without
    argument, if it throws. *)
Class Platform : Type := {
  url_parse : string -> exn (UrlObject jsval);
  url_parse_query : string -> exn (UrlObject obj);
  url_resolve : string -> string -> exn string;
  format_location :
    jsval -> jsval -> jsval -> jsval -> jsval -> jsval -> jsval -> string;
  util_format : string -> list jsval -> string;
  parseString : string -> xml_parse;
  each_values : jsval -> list jsval;
  lower_case : string -> string;
  logout : Request -> option exception
}.

(* ------------------------------------------------------------------ *)
(** ** The strategy                                                    *)
(* ------------------------------------------------------------------ *)

(** One call [verified(err, user, info)] made by the verify function. *)
Definition done_call : Type := (jsval * jsval * jsval)%type.

(** What one call of the verify function does: the calls it makes to
    [verified], in order, and the exception it throws instead of
    returning, if any.  Whether it calls back at once or later is not
    distinguished: the calls of a function that throws are listed as made
    before the exception. *)
Record verify_run : Type := mkRun {
  calls : list done_call;
  thrown : option exception
}.

(** The caller's verify function, called as [verify(profile, verified)] or
    [verify(req, profile, verified)]. *)
Definition verify_fn : Type := option Request -> jsval -> verify_run.

Inductive Client : Type := http | https.

(** The outbound call of [client.get] / [client.request]; [written] is
    the body passed to [request.write]. *)
Record ClientRequest : Type := mkClientRequest {
  via : Client;
  method : string;
  to_host : jsval;
  to_port : jsval;
  to_path : string;
  written : option string
}.

(** What an authentication attempt does to the outside: the four passport
    actions, [req.logout()] and the outbound validation call. *)
Inductive effect : Type :=
| ELogout
| ERedirect (location : string)
| ESuccess (user info : jsval)
| EFail (info : jsval)
| EError (err : jsval)
| ERequest (r : ClientRequest).

(** The constructor's [options]. *)
Module Options.
Record t : Type := mk {
  version : jsval;
  ssoBaseURL : jsval;
  serverBaseURL : jsval;
  validateURL : jsval;
  serviceURL : jsval;
  useSaml : jsval;
  passReqToCallback : jsval
}.
(** [{}] *)
Definition empty : t := mk JUndef JUndef JUndef JUndef JUndef JUndef JUndef.
End Options.

(** First argument of the constructor: an options object or, in the
    one-argument form, the verify function. *)
Inductive ctor_arg : Type :=
| ArgOptions (o : Options.t)
| ArgFunction (f : verify_fn).

(** Which closure the constructor stored in [this._validate]. *)
Inductive Validator : Type :=
| Cas10
| Cas30
| Saml.

Record Strategy : Type := mkStrategy {
  version : jsval;
  ssoBase : jsval;
  serverBaseURL : jsval;
  validateURL : jsval;
  serviceURL : jsval;
  useSaml : jsval;
  parsed : UrlObject jsval;
  client : Client;
  name : string;
  _verify : verify_fn;
  _passReqToCallback : jsval;
  _validateUri : string;
  validator : Validator
}.

(** What a [_validate] closure does with a response body: call
    [verified(err)] itself, or hand a profile to the verify function. *)
Inductive validation : Type :=
| Verified (err : jsval)
| CallVerify (profile : jsval).

(** [new Error(m)] for a string [m]. *)
Definition new_Error (m : string) : jsval := JErr m.

(** Events of the outbound call: [data] and [end] of the response, [error]
    of the request (carrying [e.message]). *)
Inductive TransportEvent : Type :=
| Data (chunk : string)
| End
| ErrorEvent (message : jsval).

Definition is_outcome (e : effect) : bool :=
  match e with
  | ERedirect _ | ESuccess _ _ | EFail _ | EError _ => true
  | ELogout | ERequest _ => false
  end.

Definition is_request (e : effect) : bool :=
  match e with
  | ERequest _ => true
  | _ => false
  end.


Definition count {A} (p : A -> bool) (l : list A) : nat :=
  List.length (filter p l).

Section WithPlatform.
Context {P : Platform}.

(** [url.parse(v)]: a non-string argument is a [TypeError]. *)
Definition parse_url (v : jsval) : exn (UrlObject jsval) :=
  match v with
  | JStr s => url_parse s
  | _ => Throw TypeError
  end.

(** [url.parse(v, true)] *)
Definition parse_url_query (v : jsval) : exn (UrlObject obj) :=
  match v with
  | JStr s => url_parse_query s
  | _ => Throw TypeError
  end.

(** [url.resolve(from, to)] *)
Definition resolve_url (from to : jsval) : exn string :=
  match from, to with
  | JStr f, JStr t => url_resolve f t
  | _, _ => Throw TypeError
  end.

(** [s.replace(/#/g, '%23')] *)
Fixpoint escape_hashes (s : string) : string :=
  match s with
  | EmptyString => EmptyString
  | String c rest =>
      if Ascii.eqb c "#" then "%23" ++ escape_hashes rest
      else String c (escape_hashes rest)
  end.

(** [s] with [c] in front, unless [s] is empty or starts with [c]. *)
Definition led_by (c : ascii) (s : string) : string :=
  match s with
  | EmptyString => EmptyString
  | String c' _ => if Ascii.eqb c' c then s else String c s
  end.

(** The query string of [url.format]: [this.search] when it is truthy
    (a string, as [url.parse] leaves it), else what [querystring.stringify]
    makes of [this.query]. *)
Definition format_search (u : UrlObject obj) : string :=
  let query := Querystring.stringify (query u) in
  let search :=
    if truthy (search u) then to_string (search u)
    else if String.eqb query EmptyString then EmptyString
    else "?" ++ query in
  led_by "?" (escape_hashes search).

Definition format_hash (u : UrlObject obj) : string :=
  led_by "#" (if truthy (hash u) then to_string (hash u) else EmptyString).

(** [url.format(u)]: [protocol + host + pathname + search + hash]. *)
Definition url_format (u : UrlObject obj) : string :=
  format_location (protocol u) (slashes u) (auth u) (host u) (port u)
                  (hostname u) (pathname u)
  ++ format_search u ++ format_hash u.

(** [v.toLowerCase()] *)
Definition toLowerCase (v : jsval) : exn string :=
  match v with
  | JStr s => Ok (lower_case s)
  | _ => Throw TypeError
  end.

(** [constructor(options, verify)] *)
Definition construct (options : ctor_arg) (verify : option verify_fn)
  : exn Strategy :=
  let '(options, verify) :=
    match options with
    | ArgFunction f => (Options.empty, Some f)
    | ArgOptions o => (o, verify)
    end in
  match verify with
  | None => Throw (Error "cas authentication strategy requires a verify function")
  | Some verify =>
      let version := or_else (Options.version options) (JStr "CAS1.0") in
      let ssoBase := Options.ssoBaseURL options in
      let useSaml := or_else (Options.useSaml options) (JBool false) in
      parsed <- parse_url ssoBase ;;
      let client := if strict_eq_str (protocol parsed) "http:" then http else https in
      let this uri v :=
        mkStrategy version ssoBase (Options.serverBaseURL options)
          (Options.validateURL options) (Options.serviceURL options) useSaml
          parsed client "cas" verify (Options.passReqToCallback options) uri v in
      if strict_eq_str version "CAS1.0" then Ok (this "/validate" Cas10)
      else if strict_eq_str version "CAS3.0" then
        if truthy useSaml then Ok (this "/samlValidate" Saml)
        else Ok (this "/p3/serviceValidate" Cas30)
      else Throw (Error ("unsupported version " ++ to_string version))
  end.

(** The CAS1.0 closure, up to the call of [verified] or of the verify
    function. *)
Definition validate_cas1 (body : string) : validation :=
  let lines := split "010" body in
  if (1 <=? List.length lines)%nat
     && strict_eq_str (index lines 0) "no" then
    Verified (new_Error "Authentication failed")
  else if (1 <=? List.length lines)%nat
          && (strict_eq_str (index lines 0) "yes"
              && (2 <=? List.length lines)%nat) then
    CallVerify (index lines 1)
  else
    Verified (new_Error "The response from the server was bad").

(** The body of [_.each(..., function (attribute) { ... })]. *)
Definition add_attribute (attributes : obj) (attribute : jsval) : exn obj :=
  a <- get attribute "$" ;;
  n <- get a "AttributeName" ;;
  key <- toLowerCase n ;;
  value <- get attribute "attributevalue" ;;
  Ok (obj_set key value attributes).

Fixpoint collect_attributes (attributes : obj) (visited : list jsval)
  : exn obj :=
  match visited with
  | [] => Ok attributes
  | attribute :: rest =>
      attributes' <- add_attribute attributes attribute ;;
      collect_attributes attributes' rest
  end.

(** The [try] block of the SAML closure. *)
Definition saml_try (result : jsval) : exn validation :=
  response <- get_path result ["envelope"; "body"; "response"] ;;
  value <- get_path response ["status"; "statuscode"; "$"; "Value"] ;;
  success <- match_Success value ;;
  if truthy success then
    attribute <- get_path response ["assertion"; "attributestatement"; "attribute"] ;;
    attributes <- collect_attributes [] (each_values attribute) ;;
    user <- get_path response
              ["assertion"; "authenticationstatement"; "subject"; "nameidentifier"] ;;
    Ok (CallVerify (JObj [("user", user); ("attributes", JObj attributes)]))
  else
    Ok (Verified (new_Error "Authentication failed")).

Definition validate_saml (body : string) : validation :=
  match parseString body with
  | XmlError => Verified (new_Error "The response from the server was bad")
  | XmlResult result =>
      match saml_try result with
      | Ok v => v
      | Throw _ => Verified (new_Error "Authentication failed")
      end
  end.

(** The [try] block of the CAS3.0 closure. *)
Definition cas3_try (result : jsval) : exn validation :=
  failure <- get_path result ["serviceresponse"; "authenticationfailure"] ;;
  if truthy failure then
    code <- get_path result ["serviceresponse"; "authenticationfailure"; "$"; "code"] ;;
    Ok (Verified (new_Error ("Authentication failed " ++ to_string code)))
  else
    success <- get_path result ["serviceresponse"; "authenticationsuccess"] ;;
    if truthy success then Ok (CallVerify success)
    else Ok (Verified (new_Error "Authentication failed")).

Definition validate_cas3 (body : string) : validation :=
  match parseString body with
  | XmlError => Verified (new_Error "The response from the server was bad")
  | XmlResult result =>
      match cas3_try result with
      | Ok v => v
      | Throw _ => Verified (new_Error "Authentication failed")
      end
  end.

Definition validate (v : Validator) (body : string) : validation :=
  match v with
  | Cas10 => validate_cas1 body
  | Cas30 => validate_cas3 body
  | Saml => validate_saml body
  end.

(** [verified(err, user, info)] of [authenticate]. *)
Definition verified (err user info : jsval) : list effect :=
  if truthy err then [EError err]
  else if negb (truthy user) then [EFail info]
  else [ESuccess user info].

(** Whether the closure calls the verify function inside its [try]: the
    two XML closures do, the CAS1.0 closure has no [try]. *)
Definition catches (v : Validator) : bool :=
  match v with
  | Cas10 => false
  | Cas30 | Saml => true
  end.

(** [self._validate(req, body, verified)]: everything signalled as a
    consequence of the call.  When the verify function throws, the
    [catch] of an XML closure calls [verified(new Error('Authentication
    failed'))]; under CAS1.0 the exception leaves the handler and nothing
    more is signalled. *)
Definition _validate (self : Strategy) (req : Request) (body : string)
  : list effect :=
  match validate (validator self) body with
  | Verified err => verified err JUndef JUndef
  | CallVerify profile =>
      let req_arg := if truthy (_passReqToCallback self) then Some req else None in
      let ran := _verify self req_arg profile in
      (flat_map (fun '(err, user, info) => verified err user info) (calls ran)
       ++ match thrown ran with
          | Some _ =>
              if catches (validator self)
              then verified (new_Error "Authentication failed") JUndef JUndef
              else []
          | None => []
          end)%list
  end.

(** [service(req)] *)
Definition service (self : Strategy) (req : Request) : exn string :=
  let serviceURL := or_else (serviceURL self) (originalUrl req) in
  resolvedURL <- resolve_url (serverBaseURL self) serviceURL ;;
  parsedURL <- url_parse_query resolvedURL ;;
  let parsedURL := set_query parsedURL (obj_delete "ticket" (query parsedURL)) in
  let parsedURL :=
    match search parsedURL with
    | JUndef => parsedURL
    | _ => delete_search parsedURL
    end in
  Ok (url_format parsedURL).

(** The [for (const property in options.loginParams)] loop. *)
Definition add_login_params (loginParams : jsval) (q : obj) : obj :=
  fold_left
    (fun q '(property, loginParam) =>
       if truthy loginParam then obj_set property loginParam q else q)
    (for_in loginParams) q.

(** The double-quote character. *)
Definition dq : string := String (ascii_of_nat 34) EmptyString.

Definition soap_template : string :=
  "<SOAP-ENV:Envelope xmlns:SOAP-ENV=" ++ dq
  ++ "http://schemas.xmlsoap.org/soap/envelope/" ++ dq
  ++ "><SOAP-ENV:Header/><SOAP-ENV:Body><samlp:Request xmlns:samlp=" ++ dq
  ++ "urn:oasis:names:tc:SAML:1.0:protocol" ++ dq
  ++ " MajorVersion=" ++ dq ++ "1" ++ dq
  ++ " MinorVersion=" ++ dq ++ "1" ++ dq
  ++ " RequestID=" ++ dq ++ "%s" ++ dq
  ++ " IssueInstant=" ++ dq ++ "%s" ++ dq
  ++ "><samlp:AssertionArtifact>%s</samlp:AssertionArtifact></samlp:Request></SOAP-ENV:Body></SOAP-ENV:Envelope>".

(** [a + b] where the result is a string: always so when one operand is a
    string, an object or an array, as [this._validateUri] and the
    [pathname] of a parsed URL are. *)
Definition concat (a b : jsval) : jsval := JStr (to_string a ++ to_string b).

(** [authenticate(req, options)] up to its return: the redirect, or the
    outbound validation call on which the handlers below are registered.
    [requestId] and [issueInstant] are the values of [uuidv4()] and
    [new Date().toISOString()]. *)
Definition authenticate (self : Strategy) (req : Request) (options : jsval)
    (requestId issueInstant : string) : exn (list effect) :=
  let options := match options with JUndef => JObj [] | _ => options end in
  relayState <- get (req_query req) "RelayState" ;;
  if truthy relayState then
    match logout req with
    | Some e => Throw e
    | None =>
        Ok [ELogout;
            ERedirect (to_string (ssoBase self)
                       ++ "/logout?_eventId=next&RelayState="
                       ++ to_string relayState)]
    end
  else
    service <- service self req ;;
    parsedReq <- parse_url_query (url req) ;;
    let ticket := obj_get "ticket" (query parsedReq) in
    if negb (truthy ticket) then
      redirectURL <- url_parse_query (to_string (ssoBase self) ++ "/login") ;;
      let q := obj_set "service" (JStr service) (query redirectURL) in
      loginParams <- get options "loginParams" ;;
      let q := add_login_params loginParams q in
      Ok [ERedirect (url_format (set_query redirectURL q))]
    else
      let _validateUri := or_else (validateURL self) (JStr (_validateUri self)) in
      let pathname := concat (pathname (parsed self)) _validateUri in
      if truthy (useSaml self) then
        let soapEnvelope :=
          util_format soap_template [JStr requestId; JStr issueInstant; ticket] in
        Ok [ERequest
              (mkClientRequest (client self) "POST" (hostname (parsed self))
                 (port (parsed self))
                 (url_format (path_and_query pathname [("TARGET", JStr service)]))
                 (Some soapEnvelope))]
      else
        Ok [ERequest
              (mkClientRequest (client self) "GET" (hostname (parsed self))
                 (port (parsed self))
                 (url_format
                    (path_and_query pathname
                       [("ticket", ticket); ("service", JStr service)]))
                 None)].

(** The handlers registered on the outbound call.  [body] is the variable
    of [_handleResponse]; the [error] handler is
    [e => self.fail(new Error(e.message || 'Unknown error'))].  An
    exception that leaves the [end] handler (a verify function that throws
    under CAS1.0) is not followed further: the events after it are taken as
    delivered. *)
Definition handle (self : Strategy) (req : Request) (body : string)
    (ev : TransportEvent) : string * list effect :=
  match ev with
  | Data chunk => (body ++ chunk, [])
  | End => (body, _validate self req body)
  | ErrorEvent message =>
      (body, [EFail (new_Error (to_string (or_else message (JStr "Unknown error"))))])
  end.

Fixpoint run (self : Strategy) (req : Request) (body : string)
    (events : list TransportEvent) : list effect :=
  match events with
  | [] => []
  | ev :: rest =>
      let '(body', out) := handle self req body ev in
      (out ++ run self req body' rest)%list
  end.

(** A whole attempt: [authenticate], then the events of the outbound call
    if one was issued. *)
Definition attempt (self : Strategy) (req : Request) (options : jsval)
    (requestId issueInstant : string) (events : list TransportEvent)
  : exn (list effect) :=
  started <- authenticate self req options requestId issueInstant ;;
  if existsb is_request started
  then Ok (started ++ run self req EmptyString events)%list
  else Ok started.

End WithPlatform.

(* ------------------------------------------------------------------ *)
(** ** A platform and inputs for the examples                          *)
(* ------------------------------------------------------------------ *)

(** A concrete platform on which the definitions above can be run.  It
    answers as Node, xml2js and underscore do on the inputs used in this
    file: a few URLs and response bodies, listed in tables. *)
Module Sample.

Definition nl : string := String "010" EmptyString.

(** [_.each]: the elements of an array-like value, the values of the own
    keys of any other object, nothing for other values. *)
Definition each_values (c : jsval) : list jsval :=
  match c with
  | JArr items => items
  | JObj fields => map snd (enumerate fields)
  | JStr s => chars s
  | JUndef | JNull | JBool _ | JErr _ => []
  end.

Definition lower_ascii (c : ascii) : ascii :=
  let n := nat_of_ascii c in
  if ((65 <=? n) && (n <=? 90))%nat then ascii_of_nat (n + 32) else c.

(** [toLowerCase] on ASCII text. *)
Fixpoint lower (s : string) : string :=
  match s with
  | EmptyString => EmptyString
  | String c rest => String (lower_ascii c) (lower rest)
  end.

Definition text (v : jsval) : string :=
  if truthy v then to_string v else EmptyString.

(** [protocol + host + pathname] of [url.format], for an object whose
    [host], when set, carries the port, and whose [pathname] holds no [?] or
    [#]. *)
Definition format_location (protocol slashes auth host port hostname pathname : jsval)
  : string :=
  text protocol ++ (if truthy slashes then "//" else EmptyString)
  ++ text host ++ text pathname.

(** The object [url.parse(u, true)] builds for [https://<h><p><s>], or for
    the bare path [<p><s>] when [h] is [null]. *)
Definition located (h p s : jsval) (q : obj) : string * UrlObject obj :=
  let relative := to_string p ++ text s in
  match h with
  | JStr name =>
      let full := "https://" ++ name ++ relative in
      (full, mkUrl (JStr "https:") (JBool true) JNull h JNull h
                   JNull s q p (JStr relative) (JStr full))
  | _ =>
      (relative, mkUrl JNull JNull JNull JNull JNull JNull
                       JNull s q p (JStr relative) (JStr relative))
  end.

(** [url.parse(u, true)] on the URLs of the examples. *)
Definition parsed_urls : list (string * UrlObject obj) :=
  [ located (JStr "app.example.org") (JStr "/private") (JStr "?ticket=ST-1&lang=en")
      [("ticket", JStr "ST-1"); ("lang", JStr "en")];
    located (JStr "app.example.org") (JStr "/private") (JStr "?ticket=ST-1")
      [("ticket", JStr "ST-1")];
    located (JStr "app.example.org") (JStr "/private") (JStr "?RelayState=abc")
      [("RelayState", JStr "abc")];
    located (JStr "app.example.org") (JStr "/private") (JStr "?ticket=ST-1&flag")
      [("ticket", JStr "ST-1"); ("flag", JStr EmptyString)];
    located (JStr "app.example.org") (JStr "/private") JNull [];
    located (JStr "cas.example.org") (JStr "/cas/login") JNull [];
    located (JStr "cas.example.org") (JStr "/cas") (JStr "?tenant=a/login")
      [("tenant", JStr "a/login")];
    located (JStr "cas.example.org") (JStr "/cas") JNull [];
    located JNull (JStr "/private") (JStr "?ticket=ST-1&lang=en")
      [("ticket", JStr "ST-1"); ("lang", JStr "en")];
    located JNull (JStr "/private") (JStr "?ticket=ST-1") [("ticket", JStr "ST-1")];
    located JNull (JStr "/private") (JStr "?RelayState=abc")
      [("RelayState", JStr "abc")];
    located JNull (JStr "/private") (JStr "?ticket=ST-1&flag")
      [("ticket", JStr "ST-1"); ("flag", JStr EmptyString)];
    located JNull (JStr "/private") JNull [] ].

Fixpoint assoc {A} (k : string) (l : list (string * A)) : option A :=
  match l with
  | [] => None
  | (k', v) :: rest => if String.eqb k k' then Some v else assoc k rest
  end.

(** Strings the URL functions of Node throw on. *)
Definition rejected : list string := ["http://["; "//[x"].

Definition url_parse_query (s : string) : exn (UrlObject obj) :=
  if existsb (String.eqb s) rejected then Throw TypeError
  else match assoc s parsed_urls with
       | Some u => Ok u
       | None => Ok (snd (located JNull (JStr s) JNull []))
       end.

(** [url.parse(u)]: the query is left as a string. *)
Definition url_parse (s : string) : exn (UrlObject jsval) :=
  u <- url_parse_query s ;;
  Ok (set_query u (match search u with
                   | JStr (String _ q) => JStr q
                   | _ => JNull
                   end)).

(** [url.resolve] of a root-relative reference against an origin, or
    against the bare root [/]. *)
Definition url_resolve (from to : string) : exn string :=
  if existsb (String.eqb to) rejected then Throw TypeError
  else if String.eqb from "/" then Ok to
  else Ok (from ++ to).

(** [util.format] with [%s] placeholders and string arguments. *)
Fixpoint util_format (template : string) (args : list jsval) : string :=
  match template with
  | String "%" (String "s" rest) =>
      match args with
      | a :: args' => to_string a ++ util_format rest args'
      | [] => String "%" (String "s" (util_format rest []))
      end
  | String c rest => String c (util_format rest args)
  | EmptyString => EmptyString
  end.

Definition element (tag : string) (inner : string) : string :=
  "<" ++ tag ++ ">" ++ inner ++ "</" ++ tag ++ ">".

Definition serviceResponse (inner : string) : string :=
  "<cas:serviceResponse xmlns:cas='http://www.yale.edu/tp/cas'>" ++ inner
  ++ "</cas:serviceResponse>".

Definition serviceresponse (fields : obj) : jsval :=
  JObj [("serviceresponse",
         JObj (("$", JObj [("xmlns:cas", JStr "http://www.yale.edu/tp/cas")])
               :: fields))].

Definition cas3_failure : string :=
  serviceResponse
    "<cas:authenticationFailure code='INVALID_TICKET'>Ticket ST-1 not recognized</cas:authenticationFailure>".

Definition cas3_failure_no_attributes : string :=
  serviceResponse
    (element "cas:authenticationFailure" "Ticket ST-1 not recognized").

Definition cas3_failure_no_code : string :=
  serviceResponse
    "<cas:authenticationFailure reason='expired'>Ticket ST-1 not recognized</cas:authenticationFailure>".

Definition cas3_success : string :=
  serviceResponse
    (element "cas:authenticationSuccess" (element "cas:user" "bob")).

Definition cas3_empty : string := serviceResponse EmptyString.

Definition saml (inner : string) : string :=
  element "Envelope" (element "Body" (element "Response" inner)).

Definition saml_response (fields : obj) : jsval :=
  JObj [("envelope", JObj [("body", JObj [("response", JObj fields)])])].

Definition saml_status (value : string) : string * jsval :=
  ("status", JObj [("statuscode", JObj [("$", JObj [("Value", JStr value)])])]).

Definition saml_denied : string :=
  saml "<Status><StatusCode Value='samlp:RequestDenied'/></Status>".

Definition saml_attribute (n v : string) : jsval :=
  JObj [("$", JObj [("AttributeName", JStr n)]); ("attributevalue", JStr v)].

Definition saml_attributes_xml : string :=
  element "AttributeStatement"
    ("<Attribute AttributeName='uid'><AttributeValue>carol</AttributeValue></Attribute>"
     ++ "<Attribute AttributeName='eduPersonAffiliation'><AttributeValue>staff</AttributeValue></Attribute>").

Definition saml_attributes_parsed : string * jsval :=
  ("attributestatement",
   JObj [("attribute", JArr [saml_attribute "uid" "carol";
                             saml_attribute "eduPersonAffiliation" "staff"])]).

(** A successful status whose [Subject] holds no [NameIdentifier]. *)
Definition saml_no_nameidentifier : string :=
  saml ("<Status><StatusCode Value='samlp:Success'/></Status>"
        ++ element "Assertion"
             (saml_attributes_xml
              ++ element "AuthenticationStatement"
                   (element "Subject"
                      (element "SubjectConfirmation"
                         (element "ConfirmationMethod" "artifact"))))).

(** A successful status with no [Assertion] at all. *)
Definition saml_no_assertion : string :=
  saml "<Status><StatusCode Value='samlp:Success'/></Status>".

(** The failure node of [cas3_failure_no_code]. *)
Definition reason_only : jsval :=
  JObj [("_", JStr "Ticket ST-1 not recognized");
        ("$", JObj [("reason", JStr "expired")])].

(** The document of [saml_no_nameidentifier]. *)
Definition no_nameidentifier : jsval :=
  saml_response
    [saml_status "samlp:Success";
     ("assertion",
      JObj [saml_attributes_parsed;
            ("authenticationstatement",
             JObj [("subject",
                    JObj [("subjectconfirmation",
                           JObj [("confirmationmethod", JStr "artifact")])])])])].

(** A body of white space only. *)
Fixpoint blank (s : string) : bool :=
  match s with
  | EmptyString => true
  | String c rest =>
      existsb (Ascii.eqb c) [" "%char; "009"%char; "010"%char; "013"%char]
      && blank rest
  end.

(** [xml2js.parseString] under [xmlParseOpts] on the bodies of the
    examples: an empty or blank body is handed over as [null], without
    error; the bodies of the table are handed over parsed; the only other
    bodies in this file are plain text, which is reported as not
    well-formed. *)
Definition parsed_bodies : list (string * jsval) :=
  [ (cas3_failure,
     serviceresponse
       [("authenticationfailure",
         JObj [("_", JStr "Ticket ST-1 not recognized");
               ("$", JObj [("code", JStr "INVALID_TICKET")])])]);
    (cas3_failure_no_attributes,
     serviceresponse [("authenticationfailure", JStr "Ticket ST-1 not recognized")]);
    (cas3_failure_no_code,
     serviceresponse [("authenticationfailure", reason_only)]);
    (cas3_success,
     serviceresponse [("authenticationsuccess", JObj [("user", JStr "bob")])]);
    (cas3_empty, serviceresponse []);
    (saml_denied, saml_response [saml_status "samlp:RequestDenied"]);
    (saml_no_assertion, saml_response [saml_status "samlp:Success"]);
    (saml_no_nameidentifier, no_nameidentifier) ].

Definition parseString (body : string) : xml_parse :=
  if blank body then XmlResult JNull
  else match assoc body parsed_bodies with
       | Some result => XmlResult result
       | None => XmlError
       end.

(** [req.logout()] of passport before 0.6: it returns. *)
Definition logout (req : Request) : option exception := None.

#[export] Instance platform : Platform :=
  Build_Platform url_parse url_parse_query url_resolve format_location
                 util_format parseString each_values lower logout.

(** A verify function that accepts every profile as the user. *)
Definition accept : verify_fn :=
  fun _ profile => mkRun [(JNull, profile, JUndef)] None.

(** [url.parse('https://cas.example.org/cas')] *)
Definition sso : UrlObject jsval :=
  set_query (snd (located (JStr "cas.example.org") (JStr "/cas") JNull [])) JNull.

Definition options (version : jsval) (useSaml : jsval) : Options.t :=
  Options.mk version (JStr "https://cas.example.org/cas")
             (JStr "https://app.example.org") JUndef JUndef useSaml JUndef.

Definition strategy (v : Validator) : Strategy :=
  mkStrategy
    (JStr (match v with Cas10 => "CAS1.0" | _ => "CAS3.0" end))
    (JStr "https://cas.example.org/cas") (JStr "https://app.example.org")
    JUndef JUndef
    (JBool (match v with Saml => true | _ => false end))
    sso https "cas" accept JUndef
    (match v with
     | Cas10 => "/validate"
     | Cas30 => "/p3/serviceValidate"
     | Saml => "/samlValidate"
     end) v.

(** [GET /private?...] as Express presents it. *)
Definition request (search : string) (q : obj) : Request :=
  mkRequest (JStr ("/private" ++ search)) (JStr ("/private" ++ search)) (JObj q).

Definition with_ticket : Request :=
  request "?ticket=ST-1&lang=en" [("ticket", JStr "ST-1"); ("lang", JStr "en")].

Definition without_ticket : Request := request EmptyString [].

Definition with_relay_state : Request :=
  request "?RelayState=abc" [("RelayState", JStr "abc")].

(** The validation call issued for [with_ticket] under CAS1.0. *)
Definition validation_call : effect :=
  ERequest
    (mkClientRequest https "GET" (JStr "cas.example.org") JNull
       "/cas/validate?ticket=ST-1&service=https%3A%2F%2Fapp.example.org%2Fprivate%3Flang%3Den"
       None).

(** A request whose query holds a parameter without value. *)
Definition with_flag : Request :=
  request "?ticket=ST-1&flag" [("ticket", JStr "ST-1"); ("flag", JStr EmptyString)].

(** The options [{ loginParams: { service: 'https://elsewhere.example.org/' } }]. *)
Definition own_service : jsval :=
  JObj [("loginParams", JObj [("service", JStr "https://elsewhere.example.org/")])].

(** The options [{ loginParams: { renew: 'true', foo: '' } }]. *)
Definition renew_and_foo : jsval :=
  JObj [("loginParams", JObj [("renew", JStr "true"); ("foo", JStr EmptyString)])].

End Sample.

(* ------------------------------------------------------------------ *)
(** ** Vocabulary of the statements                                    *)
(* ------------------------------------------------------------------ *)

(** The text before the first [sep]: the first line when [sep] is a
    newline. *)
Fixpoint before (sep : ascii) (s : string) : string :=
  match s with
  | EmptyString => EmptyString
  | String c rest =>
      if Ascii.eqb c sep then EmptyString else String c (before sep rest)
  end.

(** The text after the first [sep], when there is one. *)
Fixpoint after (sep : ascii) (s : string) : option string :=
  match s with
  | EmptyString => None
  | String c rest => if Ascii.eqb c sep then Some rest else after sep rest
  end.

(** The CAS1.0 parser read line by line: a first line [no] is a
    rejection; a first line [yes] followed by a newline hands over the
    second line as it stands; anything else is a bad response. *)
Definition cas1_reading (body : string) : validation :=
  let first := before "010" body in
  if String.eqb first "no" then Verified (new_Error "Authentication failed")
  else if String.eqb first "yes" then
    match after "010" body with
    | Some rest => CallVerify (JStr (before "010" rest))
    | None => Verified (new_Error "The response from the server was bad")
    end
  else Verified (new_Error "The response from the server was bad").

(** A property read that finds nothing to go on with: it threw, or it
    produced [undefined] or [null]. *)
Definition missing (v : exn jsval) : bool :=
  match v with
  | Ok JUndef | Ok JNull | Throw _ => true
  | Ok _ => false
  end.

(** The node [k] of the CAS3.0 root response, when the parsed document
    has one (an empty element, which xml2js renders as the empty string, is
    no node). *)
Definition node (result : jsval) (k : string) : option jsval :=
  match get_path result ["serviceresponse"; k] with
  | Ok n => if truthy n then Some n else None
  | Throw _ => None
  end.

Definition response_path : list string := ["envelope"; "body"; "response"].



(** The message for a CAS3.0 failure node: the read of its [$.code] is
    appended as it comes ([undefined] for attributes without a code), and
    a node without attributes, on which the read throws, gives the bare
    message. *)
Definition failure_message (failure : jsval) : string :=
  match get_path failure ["$"; "code"] with
  | Ok code => "Authentication failed " ++ to_string code
  | Throw _ => "Authentication failed"
  end.

(** What the CAS3.0 parser makes of what xml2js hands over. *)
Definition cas3_outcome (p : xml_parse) : validation :=
  match p with
  | XmlError => Verified (new_Error "The response from the server was bad")
  | XmlResult result =>
      match node result "authenticationfailure" with
      | Some failure => Verified (new_Error (failure_message failure))
      | None =>
          match node result "authenticationsuccess" with
          | Some success => CallVerify success
          | None => Verified (new_Error "Authentication failed")
          end
      end
  end.

(** The message of a rejection, with the server's code when it gave one. *)
Definition denial_message (code : option jsval) : string :=
  match code with
  | None => "Authentication failed"
  | Some c => "Authentication failed " ++ to_string c
  end.

(** The login parameters with a truthy value, in loop order. *)
Definition forwarded (loginParams : jsval) : list (string * jsval) :=
  filter (fun kv => truthy (snd kv)) (for_in loginParams).

(** The last value bound to [k]. *)
Fixpoint last_value (k : string) (l : list (string * jsval)) : option jsval :=
  match l with
  | [] => None
  | (k', v) :: rest =>
      match last_value k rest with
      | Some w => Some w
      | None => if String.eqb k k' then Some v else None
      end
  end.

(** The version the constructor switches on. *)
Definition effective_version (o : Options.t) : jsval :=
  or_else (Options.version o) (JStr "CAS1.0").

Definition supported (version : jsval) : Prop :=
  version = JStr "CAS1.0" \/ version = JStr "CAS3.0".

Section Statements.
Context {P : Platform}.

(** The server explicitly denies the ticket, with [code] when the denial
    carries one: a CAS1.0 body whose first line is [no]; a CAS3.0 document
    with an [authenticationfailure] node, whose [code] attribute is read
    when the node has attributes; a SAML status code that is a string not
    ending in [Success]. *)
Inductive denies : Validator -> string -> option jsval -> Prop :=
| denies_cas1 body :
    before "010" body = "no" ->
    denies Cas10 body None
| denies_cas3 body result failure attributes :
    parseString body = XmlResult result ->
    node result "authenticationfailure" = Some failure ->
    get failure "$" = Ok (JObj attributes) ->
    denies Cas30 body (Some (obj_get "code" attributes))
| denies_cas3_bare body result failure :
    parseString body = XmlResult result ->
    node result "authenticationfailure" = Some failure ->
    missing (get failure "$") = true ->
    denies Cas30 body None
| denies_saml body result value :
    parseString body = XmlResult result ->
    get_path result (response_path ++ ["status"; "statuscode"; "$"; "Value"])
      = Ok (JStr value) ->
    ends_with "Success" value = false ->
    denies Saml body None.

End Statements.

(* ------------------------------------------------------------------ *)
(** ** Vocabulary of the further properties                            *)
(* ------------------------------------------------------------------ *)

(** [s] holds no newline. *)
Definition one_line (s : string) : Prop := after "010" s = None.

(** The three signals that end a validation: [success], [fail], [error]. *)
Definition is_verdict (e : effect) : bool :=
  match e with
  | ESuccess _ _ | EFail _ | EError _ => true
  | ELogout | ERedirect _ | ERequest _ => false
  end.

(** What one call [verified(err, user, info)] signals. *)
Definition outcome_of (call : done_call) : effect :=
  let '(err, user, info) := call in
  if truthy err then EError err
  else if truthy user then ESuccess user info
  else EFail info.

(** An attribute node with a string [AttributeName] in its attributes. *)
Definition attribute_ok (node : jsval) : bool :=
  match get_path node ["$"; "AttributeName"] with
  | Ok (JStr _) => true
  | _ => false
  end.





(** [v] is a string. *)
Definition is_string (v : jsval) : bool :=
  match v with
  | JStr _ => true
  | _ => false
  end.

(** Further inputs for the examples: responses that [Sample] does not
    list, passport's later [req.logout], and strategies configured
    otherwise. *)
Module More.
Import Sample.

Definition saml_subject_xml : string :=
  element "AuthenticationStatement"
    (element "Subject" (element "NameIdentifier" "carol")).

Definition saml_subject_parsed : string * jsval :=
  ("authenticationstatement",
   JObj [("subject", JObj [("nameidentifier", JStr "carol")])]).

(** A successful status, two attributes and a name identifier. *)
Definition saml_success : string :=
  saml ("<Status><StatusCode Value='samlp:Success'/></Status>"
        ++ element "Assertion" (saml_attributes_xml ++ saml_subject_xml)).

Definition saml_success_parsed : jsval :=
  saml_response
    [saml_status "samlp:Success";
     ("assertion", JObj [saml_attributes_parsed; saml_subject_parsed])].

(** The same with one attribute only: xml2js, with [explicitArray: false],
    renders the single [Attribute] element as an object, not as an array. *)
Definition saml_one_attribute : string :=
  saml ("<Status><StatusCode Value='samlp:Success'/></Status>"
        ++ element "Assertion"
             (element "AttributeStatement"
                "<Attribute AttributeName='uid'><AttributeValue>carol</AttributeValue></Attribute>"
              ++ saml_subject_xml)).

Definition saml_one_attribute_parsed : jsval :=
  saml_response
    [saml_status "samlp:Success";
     ("assertion",
      JObj [("attributestatement", JObj [("attribute", saml_attribute "uid" "carol")]);
            saml_subject_parsed])].

(** A CAS3.0 response that holds a failure node and a success node. *)
Definition cas3_both : string :=
  serviceResponse
    ("<cas:authenticationFailure code='INVALID_TICKET'>Ticket ST-1 not recognized</cas:authenticationFailure>"
     ++ element "cas:authenticationSuccess" (element "cas:user" "bob")).

Definition cas3_both_parsed : jsval :=
  serviceresponse
    [("authenticationfailure",
      JObj [("_", JStr "Ticket ST-1 not recognized");
            ("$", JObj [("code", JStr "INVALID_TICKET")])]);
     ("authenticationsuccess", JObj [("user", JStr "bob")])].


(** A CAS3.0 response whose failure element is empty, next to a success
    node: xml2js renders the empty element as the empty string. *)
Definition cas3_empty_failure : string :=
  serviceResponse
    ("<cas:authenticationFailure/>"
     ++ element "cas:authenticationSuccess" (element "cas:user" "bob")).

Definition cas3_empty_failure_parsed : jsval :=
  serviceresponse
    [("authenticationfailure", JStr EmptyString);
     ("authenticationsuccess", JObj [("user", JStr "bob")])].

Definition parsed_bodies : list (string * jsval) :=
  [ (saml_success, saml_success_parsed);
    (saml_one_attribute, saml_one_attribute_parsed);
    (cas3_both, cas3_both_parsed);
    (cas3_empty_failure, cas3_empty_failure_parsed) ].

Definition parseString (body : string) : xml_parse :=
  match assoc body parsed_bodies with
  | Some result => XmlResult result
  | None => Sample.parseString body
  end.

Definition platform : Platform :=
  Build_Platform url_parse url_parse_query url_resolve format_location
                 util_format parseString each_values lower logout.



(** A CAS1.0 strategy that was given no [serverBaseURL]. *)
Definition no_server_base : Strategy :=
  mkStrategy (JStr "CAS1.0") (JStr "https://cas.example.org/cas")
             JUndef JUndef JUndef (JBool false)
             sso https "cas" accept JUndef
             "/validate" Cas10.

(** The SAML validation call issued for [with_ticket]. *)
Definition saml_call : ClientRequest :=
  mkClientRequest https "POST" (JStr "cas.example.org") JNull
    "/cas/samlValidate?TARGET=https%3A%2F%2Fapp.example.org%2Fprivate%3Flang%3Den"
    (Some (util_format soap_template [JStr "id"; JStr "now"; JStr "ST-1"])).


(** A verify function that accepts the profile and then throws. *)
Definition accept_then_throw : verify_fn :=
  fun _ profile => mkRun [(JNull, profile, JUndef)] (Some (Error "boom")).

(** The plain-XML strategy with that verify function. *)
Definition throwing : Strategy :=
  mkStrategy (JStr "CAS3.0") (JStr "https://cas.example.org/cas")
             (JStr "https://app.example.org") JUndef JUndef (JBool false)
             sso https "cas" accept_then_throw JUndef
             "/p3/serviceValidate" Cas30.


(** The CAS1.0 strategy of a site whose [ssoBaseURL] carries a query
    string. *)
Definition with_tenant : Strategy :=
  mkStrategy (JStr "CAS1.0") (JStr "https://cas.example.org/cas?tenant=a")
             (JStr "https://app.example.org") JUndef JUndef (JBool false)
             (set_query
                (snd (located (JStr "cas.example.org") (JStr "/cas")
                        (JStr "?tenant=a") []))
                (JStr "tenant=a"))
             https "cas" accept JUndef "/validate" Cas10.

(** CAS1.0 options that ask for SAML and name a validation path. *)
Definition custom_options : Options.t :=
  Options.mk (JStr "CAS1.0") (JStr "https://cas.example.org/cas")
             (JStr "https://app.example.org") (JStr "/custom") JUndef
             (JBool true) JUndef.

(** The strategy those options construct. *)
Definition custom_path : Strategy :=
  mkStrategy (JStr "CAS1.0") (JStr "https://cas.example.org/cas")
             (JStr "https://app.example.org") (JStr "/custom") JUndef (JBool true)
             sso https "cas" accept JUndef "/validate" Cas10.

(** Options whose [ssoBaseURL] Node's [url.parse] rejects. *)
Definition unparsable : Options.t :=
  Options.mk (JStr "CAS3.0") (JStr "http://[") (JStr "https://app.example.org")
             JUndef JUndef JUndef JUndef.

(** A request whose URL Node's [url.resolve] rejects. *)
Definition unresolvable : Request :=
  mkRequest (JStr "//[x") (JStr "//[x") (JObj []).

(** The validation call that strategy issues for [with_ticket]. *)
Definition custom_call : ClientRequest :=
  mkClientRequest https "POST" (JStr "cas.example.org") JNull
    "/cas/custom?TARGET=https%3A%2F%2Fapp.example.org%2Fprivate%3Flang%3Den"
    (Some (util_format soap_template [JStr "id"; JStr "now"; JStr "ST-1"])).

End More.

(* ------------------------------------------------------------------ *)
(** ** Properties                                                      *)
(* ------------------------------------------------------------------ *)

Section Properties.
Context {P : Platform}.

(** *** Values and objects *)

Lemma get_path_app (p q : list string) : forall v,
  get_path v (p ++ q)%list = bind (get_path v p) (fun w => get_path w q).
Proof.
  induction p as [|k p IH]; intros v; simpl; [reflexivity|].
  destruct (get v k) as [w|e]; simpl; [apply IH | reflexivity].
Qed.

Lemma get_missing (v : jsval) (k : string) :
  missing (Ok v) = true -> get v k = Throw TypeError.
Proof. destruct v; simpl; intros H; try discriminate; reflexivity. Qed.

Lemma get_throws (v : jsval) (k : string) (e : exception) :
  get v k = Throw e -> e = TypeError.
Proof. destruct v; simpl; intros H; inversion H; reflexivity. Qed.



Lemma node_some (result : jsval) (k : string) (n : jsval) :
  node result k = Some n ->
  get_path result ["serviceresponse"; k] = Ok n /\ truthy n = true.
Proof.
  unfold node. destruct (get_path result ["serviceresponse"; k]) as [m|e];
    [|discriminate].
  destruct (truthy m) eqn:T; [|discriminate].
  intros H; inversion H; subst. split; [reflexivity | exact T].
Qed.

Lemma node_none (result : jsval) (k : string) :
  node result k = None ->
  (exists e, get_path result ["serviceresponse"; k] = Throw e)
  \/ (exists n, get_path result ["serviceresponse"; k] = Ok n /\ truthy n = false).
Proof.
  unfold node. destruct (get_path result ["serviceresponse"; k]) as [m|e].
  - destruct (truthy m) eqn:T; [discriminate|]. intros _. right. eauto.
  - intros _. left. eauto.
Qed.

Lemma obj_get_set (k k' : string) (v : jsval) (o : obj) :
  obj_get k (obj_set k' v o) = if String.eqb k k' then v else obj_get k o.
Proof.
  induction o as [|[k0 v0] o IH]; simpl.
  - destruct (String.eqb k k'); reflexivity.
  - destruct (String.eqb k' k0) eqn:E0; simpl.
    + apply String.eqb_eq in E0. subst k0.
      destruct (String.eqb k k'); reflexivity.
    + destruct (String.eqb k k0) eqn:E1.
      * apply String.eqb_eq in E1. subst k0.
        rewrite String.eqb_sym, E0. reflexivity.
      * exact IH.
Qed.

Lemma has_key_set (k k' : string) (v : jsval) (o : obj) :
  has_key k (obj_set k' v o) = String.eqb k k' || has_key k o.
Proof.
  unfold has_key.
  induction o as [|[k0 v0] o IH]; simpl.
  - rewrite orb_false_r. reflexivity.
  - destruct (String.eqb k' k0) eqn:E0; simpl.
    + apply String.eqb_eq in E0. subst k0.
      destruct (String.eqb k k'); reflexivity.
    + rewrite IH. destruct (String.eqb k k0), (String.eqb k k'); reflexivity.
Qed.

Lemma obj_get_absent (k : string) (o : obj) :
  has_key k o = false -> obj_get k o = JUndef.
Proof.
  unfold has_key.
  induction o as [|[k0 v0] o IH]; cbn [existsb obj_get fst]; [reflexivity|].
  destruct (String.eqb k k0); [discriminate|]. exact IH.
Qed.

Lemma has_key_delete (k : string) (o : obj) :
  has_key k (obj_delete k o) = false.
Proof.
  unfold has_key, obj_delete.
  induction o as [|[k0 v0] o IH]; simpl; [reflexivity|].
  destruct (String.eqb k k0) eqn:E; simpl; [exact IH|].
  rewrite E. exact IH.
Qed.

Lemma obj_get_delete (k k' : string) (o : obj) :
  obj_get k (obj_delete k' o)
  = if String.eqb k k' then JUndef else obj_get k o.
Proof.
  unfold obj_delete.
  induction o as [|[k0 v0] o IH]; simpl.
  - destruct (String.eqb k k'); reflexivity.
  - destruct (String.eqb k' k0) eqn:E0; simpl.
    + apply String.eqb_eq in E0. subst k0. rewrite IH.
      destruct (String.eqb k k'); reflexivity.
    + rewrite IH. destruct (String.eqb k k0) eqn:E1; [|reflexivity].
      apply String.eqb_eq in E1. subst k0.
      rewrite String.eqb_sym, E0. reflexivity.
Qed.

Lemma has_key_delete_other (k k' : string) (o : obj) :
  k <> k' -> has_key k (obj_delete k' o) = has_key k o.
Proof.
  intros N. unfold has_key, obj_delete.
  induction o as [|[k0 v0] o IH]; simpl; [reflexivity|].
  destruct (String.eqb k' k0) eqn:E0; simpl.
  - apply String.eqb_eq in E0. subst k0.
    apply String.eqb_neq in N. rewrite N. exact IH.
  - rewrite IH. reflexivity.
Qed.


Lemma obj_get_In (k : string) (o : obj) (v : jsval) :
  obj_get k o = v -> v <> JUndef -> In (k, v) o.
Proof.
  induction o as [|[k0 v0] o IH]; cbn [obj_get In].
  - intros <- N. contradiction.
  - destruct (String.eqb k k0) eqn:E.
    + apply String.eqb_eq in E. subst k0. intros -> _. left. reflexivity.
    + intros H N. right. exact (IH H N).
Qed.

(** *** Enumeration order *)

Lemma insert_by_index_In (i : N) (kv : string * jsval) (l : list (N * (string * jsval))) x :
  In x (insert_by_index i kv l) <-> x = (i, kv) \/ In x l.
Proof.
  induction l as [|[j kv'] l IH]; cbn [insert_by_index].
  - cbn. intuition.
  - destruct (i <? j)%N; cbn [In]; [intuition|].
    rewrite IH. intuition.
Qed.

Lemma by_index_In (o : obj) : forall acc x,
  In x (fold_left
          (fun sorted kv =>
             match array_index (fst kv) with
             | Some i => insert_by_index i kv sorted
             | None => sorted
             end) o acc)
  <-> In x acc \/ (In (snd x) o /\ array_index (fst (snd x)) = Some (fst x)).
Proof.
  induction o as [|kv o IH]; intros acc x; cbn [fold_left In].
  - intuition.
  - rewrite IH. destruct (array_index (fst kv)) as [i|] eqn:A.
    + rewrite insert_by_index_In. split.
      * intros [[->|H]|[H1 H2]]; cbn [fst snd]; auto.
      * intros [H|[[->|H1] H2]]; auto.
        left. left. destruct x as [j kv']. cbn [fst snd] in *.
        rewrite A in H2. injection H2 as ->. reflexivity.
    + split.
      * intros [H|[H1 H2]]; auto.
      * intros [H|[[->|H1] H2]]; auto. rewrite A in H2. discriminate H2.
Qed.

(** Enumerating an object visits its properties, all of them and no
    other. *)
Lemma enumerate_In (o : obj) (kv : string * jsval) :
  In kv (enumerate o) <-> In kv o.
Proof.
  unfold enumerate, by_index. rewrite in_app_iff, in_map_iff, filter_In. split.
  - intros [[x [<- H]]|[H _]]; [|exact H].
    apply by_index_In in H. destruct H as [[]|[H _]]. exact H.
  - intros H. destruct (array_index (fst kv)) as [i|] eqn:A.
    + left. exists (i, kv). split; [reflexivity|].
      apply by_index_In. right. cbn [fst snd]. auto.
    + right. auto.
Qed.








(** *** The query string of [url.format] *)

Lemma escape_hashes_app (a b : string) :
  escape_hashes (a ++ b) = escape_hashes a ++ escape_hashes b.
Proof.
  induction a as [|c a IH]; cbn [escape_hashes append]; [reflexivity|].
  rewrite IH. destruct (Ascii.eqb c "#"); reflexivity.
Qed.

Lemma hex_digit_hash (n : nat) : Ascii.eqb (Querystring.hex_digit n) "#" = false.
Proof.
  unfold Querystring.hex_digit.
  do 16 (destruct n as [|n]; [reflexivity|]).
  cbn. destruct n; reflexivity.
Qed.

Lemma unreserved_hash (c : ascii) :
  Querystring.unreserved c = true -> Ascii.eqb c "#" = false.
Proof.
  destruct (Ascii.eqb c "#") eqn:E; [|reflexivity].
  apply Ascii.eqb_eq in E. subst c. intros H. discriminate H.
Qed.

(** [querystring.escape] leaves no [#] behind. *)
Lemma escape_hashes_escape (s : string) :
  escape_hashes (Querystring.escape s) = Querystring.escape s.
Proof.
  induction s as [|c s IH]; cbn [Querystring.escape]; [reflexivity|].
  destruct (Querystring.unreserved c) eqn:U; cbn [escape_hashes].
  - rewrite (unreserved_hash c U), IH. reflexivity.
  - rewrite !hex_digit_hash, IH. reflexivity.
Qed.

Lemma escape_hashes_field (k v : string) :
  escape_hashes ((Querystring.escape k ++ "=") ++ Querystring.escape v)
  = (Querystring.escape k ++ "=") ++ Querystring.escape v.
Proof.
  rewrite !escape_hashes_app, !escape_hashes_escape. reflexivity.
Qed.

Lemma escape_hashes_fields (kv : string * jsval) :
  Forall (fun f => escape_hashes f = f) (Querystring.fields kv).
Proof.
  unfold Querystring.fields. destruct (snd kv) as [| | b | s | m | l | items];
    [constructor; [apply escape_hashes_field | constructor] ..|].
  apply Forall_forall. intros f F. apply in_map_iff in F.
  destruct F as [x [<- _]]. apply escape_hashes_field.
Qed.

Lemma escape_hashes_join (l : list string) :
  Forall (fun f => escape_hashes f = f) l ->
  escape_hashes (Querystring.join "&" l) = Querystring.join "&" l.
Proof.
  unfold Querystring.join. destruct l as [|x l]; [reflexivity|].
  intros F. inversion F as [|? ? X L]; subst. clear F.
  revert x X. induction L as [|y l Y L IH]; intros x X; cbn [fold_left]; [exact X|].
  apply IH. rewrite !escape_hashes_app, X, Y. reflexivity.
Qed.

Lemma escape_hashes_stringify (q : obj) :
  escape_hashes (Querystring.stringify q) = Querystring.stringify q.
Proof.
  unfold Querystring.stringify. apply escape_hashes_join.
  apply Forall_forall. intros f F. apply in_flat_map in F.
  destruct F as [kv [_ F]].
  pose proof (escape_hashes_fields kv) as H. rewrite Forall_forall in H. exact (H f F).
Qed.

(** Without a [search], [url.format] rebuilds the query string from the
    [query] object, and emits none when that leaves nothing. *)
Lemma format_search_rebuilt (u : UrlObject obj) :
  truthy (search u) = false ->
  format_search u
  = if String.eqb (Querystring.stringify (query u)) EmptyString then EmptyString
    else "?" ++ Querystring.stringify (query u).
Proof.
  intros S. unfold format_search. rewrite S.
  destruct (String.eqb (Querystring.stringify (query u)) EmptyString); [reflexivity|].
  change (escape_hashes ("?" ++ Querystring.stringify (query u)))
    with ("?" ++ escape_hashes (Querystring.stringify (query u))).
  rewrite escape_hashes_stringify. reflexivity.
Qed.

(** With a [search], the [query] object is not looked at. *)
Lemma format_search_kept (u : UrlObject obj) (q : obj) :
  truthy (search u) = true ->
  format_search (set_query u q) = format_search u.
Proof.
  intros S. unfold format_search, set_query. cbn [search query]. rewrite S. reflexivity.
Qed.

(** *** CAS1.0 *)

Lemma split_before_after (sep : ascii) (s : string) :
  split sep s = before sep s :: match after sep s with
                                | Some rest => split sep rest
                                | None => []
                                end.
Proof.
  induction s as [|c s IH]; simpl; [reflexivity|].
  destruct (Ascii.eqb c sep); [reflexivity|].
  rewrite IH. reflexivity.
Qed.

Lemma validate_cas1_reading (body : string) :
  validate_cas1 body = cas1_reading body.
Proof.
  unfold validate_cas1, cas1_reading.
  rewrite (split_before_after "010" body). simpl.
  destruct (String.eqb (before "010" body) "no"); [reflexivity|].
  destruct (String.eqb (before "010" body) "yes"); [|reflexivity].
  destruct (after "010" body) as [rest|]; simpl; [|reflexivity].
  rewrite (split_before_after "010" rest). reflexivity.
Qed.

(** C2 (as amended).  The CAS1.0 parser, for every response body: a first
    line [no] is a rejection; a first line [yes] followed by a newline
    hands the second line to the verify function exactly as received (it is
    not trimmed and may be empty); any other shape is a bad-response
    error.  In particular [yes\nalice\n] gives the principal [alice],
    [no\n] a rejection, the empty body and a lone [yes] a bad-response
    error, and [yes\n] the empty principal. *)
Theorem cas1_parser :
  (forall body, validate_cas1 body = cas1_reading body)
  /\ validate_cas1 ("yes" ++ Sample.nl ++ "alice" ++ Sample.nl)
     = CallVerify (JStr "alice")
  /\ validate_cas1 ("no" ++ Sample.nl)
     = Verified (new_Error "Authentication failed")
  /\ validate_cas1 EmptyString
     = Verified (new_Error "The response from the server was bad")
  /\ validate_cas1 "yes"
     = Verified (new_Error "The response from the server was bad")
  /\ validate_cas1 ("yes" ++ Sample.nl) = CallVerify (JStr EmptyString)
  /\ validate_cas1 ("yes" ++ Sample.nl ++ " alice " ++ Sample.nl)
     = CallVerify (JStr " alice ").
Proof.
  split; [exact validate_cas1_reading|].
  repeat split; reflexivity.
Qed.

(** *** What the parsers report *)

Lemma verified_error (m : string) :
  verified (new_Error m) JUndef JUndef = [EError (new_Error m)].
Proof. reflexivity. Qed.

Lemma saml_try_denied (result : jsval) (value : string) :
  get_path result (response_path ++ ["status"; "statuscode"; "$"; "Value"])
    = Ok (JStr value) ->
  ends_with "Success" value = false ->
  saml_try result = Ok (Verified (new_Error "Authentication failed")).
Proof.
  intros G E. rewrite get_path_app in G. unfold saml_try.
  fold response_path.
  destruct (get_path result response_path) as [response|e]; [|discriminate].
  cbn [bind] in *. rewrite G. cbn [bind match_Success]. rewrite E. reflexivity.
Qed.

Lemma cas3_try_failure (result failure : jsval) :
  node result "authenticationfailure" = Some failure ->
  cas3_try result
  = bind (get_path failure ["$"; "code"])
         (fun code => Ok (Verified (new_Error ("Authentication failed "
                                               ++ to_string code)))).
Proof.
  intros N. destruct (node_some _ _ _ N) as [G T].
  unfold cas3_try. rewrite G. cbn [bind]. rewrite T.
  change ["serviceresponse"; "authenticationfailure"; "$"; "code"]
    with (["serviceresponse"; "authenticationfailure"] ++ ["$"; "code"])%list.
  rewrite get_path_app, G. reflexivity.
Qed.

Lemma cas3_try_no_failure (result : jsval) :
  node result "authenticationfailure" = None ->
  match cas3_try result with
  | Ok v => v
  | Throw _ => Verified (new_Error "Authentication failed")
  end
  = match node result "authenticationsuccess" with
    | Some success => CallVerify success
    | None => Verified (new_Error "Authentication failed")
    end.
Proof.
  intros N. unfold cas3_try, node in *.
  simpl in *.
  destruct (get result "serviceresponse") as [sr|e]; simpl in *; [|reflexivity].
  destruct (get sr "authenticationfailure") as [f|e] eqn:G; simpl in *.
  - destruct (truthy f); [discriminate|].
    destruct (get sr "authenticationsuccess") as [s|e]; simpl; [|reflexivity].
    destruct (truthy s); reflexivity.
  - destruct sr; simpl in G; try discriminate G; reflexivity.
Qed.

(** C1 (as amended).  For every validation attempt in which the server
    explicitly denies the ticket (CAS1.0 first line [no], CAS3.0 response
    with an [authenticationfailure] node, SAML non-success status code),
    what is signalled is an error (the Error variant, through
    [self.error]), not a failure: an [Error] object whose message is
    [Authentication failed], followed by the server's failure code when the
    CAS3.0 node has attributes. *)
Theorem explicit_denial_is_error (self : Strategy) (req : Request)
    (body : string) (code : option jsval) :
  denies (validator self) body code ->
  _validate self req body = [EError (new_Error (denial_message code))].
Proof.
  intros D. unfold _validate.
  destruct D as [body F | body result failure attributes X N A
                 | body result failure X N M | body result value X G E];
    cbn [validate].
  - rewrite validate_cas1_reading. unfold cas1_reading.
    rewrite F. reflexivity.
  - unfold validate_cas3. rewrite X, (cas3_try_failure _ _ N).
    cbn [get_path bind]. rewrite A. reflexivity.
  - unfold validate_cas3. rewrite X, (cas3_try_failure _ _ N).
    cbn [get_path bind].
    destruct (get failure "$") as [a|e]; cbn [bind]; [|reflexivity].
    rewrite (get_missing a "code" M). reflexivity.
  - unfold validate_saml. rewrite X, (saml_try_denied _ _ G E). reflexivity.
Qed.

(** C4 (as amended).  The CAS3.0 plain-XML parser, for every response
    body, where a node is a truthy property of the parsed root response (an
    empty element, which xml2js renders as the empty string, is none): when
    xml2js reports an error the outcome is the error [The response from the
    server was bad]; otherwise a root response with an
    [authenticationfailure] node yields the error [Authentication failed
    <code>], where [<code>] is the [code] attribute of the node as a string
    ([undefined] when the node has attributes but no [code]), or the bare
    [Authentication failed] when the node has no attributes; otherwise one
    with an [authenticationsuccess] node hands that node, as it is, to the
    verify function as the principal; otherwise the error is
    [Authentication failed].  In particular a body for which xml2js reports
    no error and hands over [null], as it does for an empty or blank body,
    yields [Authentication failed], and an empty [authenticationfailure]
    element next to an [authenticationsuccess] node is accepted. *)
Theorem cas3_parser :
  (forall body, validate_cas3 body = cas3_outcome (parseString body))
  /\ (forall body,
        parseString body = XmlResult JNull ->
        validate_cas3 body = Verified (new_Error "Authentication failed"))
  /\ (forall body result success,
        parseString body = XmlResult result ->
        get_path result ["serviceresponse"; "authenticationfailure"]
          = Ok (JStr EmptyString) ->
        node result "authenticationsuccess" = Some success ->
        validate_cas3 body = CallVerify success).
Proof.
  assert (R : forall body, validate_cas3 body = cas3_outcome (parseString body)).
  { intros body. unfold validate_cas3, cas3_outcome.
    destruct (parseString body) as [|result]; [reflexivity|].
    destruct (node result "authenticationfailure") as [failure|] eqn:N.
    - rewrite (cas3_try_failure _ _ N). unfold failure_message.
      destruct (get_path failure ["$"; "code"]); reflexivity.
    - exact (cas3_try_no_failure _ N). }
  split; [exact R|]. split.
  - intros body X. rewrite R, X. reflexivity.
  - intros body result success X F S. rewrite R, X. unfold cas3_outcome.
    assert (N : node result "authenticationfailure" = None).
    { unfold node. rewrite F. reflexivity. }
    rewrite N, S. reflexivity.
Qed.

(** C10 (as amended).  In the CAS3.0 plain-XML parser, for every response
    whose [authenticationfailure] node has no attribute object at all, the
    read of [$.code] throws, is caught, and the parser yields the generic
    [Authentication failed] without a code; when the node has an attribute
    object that holds no [code], nothing is thrown and the message is
    [Authentication failed undefined]. *)
Theorem cas3_failure_without_code (body : string) (result failure : jsval) :
  parseString body = XmlResult result ->
  node result "authenticationfailure" = Some failure ->
  (missing (get failure "$") = true ->
   cas3_try result = Throw TypeError
   /\ validate_cas3 body = Verified (new_Error "Authentication failed"))
  /\ (forall attributes,
        get failure "$" = Ok (JObj attributes) ->
        has_key "code" attributes = false ->
        validate_cas3 body
        = Verified (new_Error "Authentication failed undefined")).
Proof.
  intros X N. unfold validate_cas3. rewrite X, (cas3_try_failure _ _ N).
  cbn [get_path bind]. split.
  - intros M. destruct (get failure "$") as [a|e] eqn:G; cbn [bind].
    + rewrite (get_missing a "code" M). split; reflexivity.
    + rewrite (get_throws _ _ _ G). split; reflexivity.
  - intros attributes A H. rewrite A. cbn [bind get].
    rewrite (obj_get_absent _ _ H). reflexivity.
Qed.

(** *** SAML *)



(** *** Signals of an attempt *)

Lemma count_app {A} (p : A -> bool) (l l' : list A) :
  count p (l ++ l')%list = count p l + count p l'.
Proof. unfold count. rewrite filter_app, length_app. reflexivity. Qed.

Lemma verified_one (err user info : jsval) :
  count is_outcome (verified err user info) = 1
  /\ count is_request (verified err user info) = 0.
Proof.
  unfold verified.
  destruct (truthy err); [split; reflexivity|].
  destruct (truthy user); split; reflexivity.
Qed.

Lemma calls_requests (l : list done_call) :
  count is_request
    (flat_map (fun '(err, user, info) => verified err user info) l) = 0.
Proof.
  induction l as [|[[e u] i] l IH]; [reflexivity|].
  cbn [flat_map]. rewrite count_app, IH.
  destruct (verified_one e u i) as [_ ->]. reflexivity.
Qed.

Lemma _validate_requests (self : Strategy) (req : Request) (body : string) :
  count is_request (_validate self req body) = 0.
Proof.
  unfold _validate.
  destruct (validate (validator self) body) as [err|profile].
  - apply verified_one.
  - rewrite count_app, calls_requests.
    destruct (thrown _); [|reflexivity].
    destruct (catches _); reflexivity.
Qed.


Lemma run_requests (self : Strategy) (req : Request) (events : list TransportEvent) :
  forall body, count is_request (run self req body events) = 0.
Proof.
  induction events as [|ev events IH]; intros body; [reflexivity|].
  cbn [run]. destruct ev as [chunk| |message]; cbn [handle];
    rewrite count_app, IH; [reflexivity | | reflexivity].
  rewrite _validate_requests. reflexivity.
Qed.


Lemma run_data (self : Strategy) (req : Request) (chunks : list string)
    (rest : list TransportEvent) :
  forall body,
    run self req body (map Data chunks ++ rest)%list
    = run self req (body ++ String.concat EmptyString chunks) rest.
Proof.
  induction chunks as [|chunk chunks IH]; intros body.
  - cbn. replace (body ++ EmptyString) with body; [reflexivity|].
    clear. induction body as [|c b IHb]; cbn; [reflexivity | f_equal; exact IHb].
  - cbn [map app run handle]. rewrite IH. cbn [app]. f_equal.
    clear. revert chunk. induction body as [|c b IHb]; intros chunk.
    + cbn. destruct chunks; cbn; [|reflexivity].
      induction chunk as [|c k IHk]; cbn; [reflexivity | f_equal; exact IHk].
    + cbn. f_equal. apply IHb.
Qed.

(** What [authenticate] has done when it returns: a logout and a redirect,
    a redirect, or one outbound call. *)
Lemma authenticate_shapes (self : Strategy) (req : Request) (options : jsval)
    (requestId issueInstant : string) (started : list effect) :
  authenticate self req options requestId issueInstant = Ok started ->
  (exists location, started = [ELogout; ERedirect location])
  \/ (exists location, started = [ERedirect location])
  \/ (exists r, started = [ERequest r]).
Proof.
  unfold authenticate.
  destruct (get (req_query req) "RelayState") as [relayState|e]; cbn [bind];
    [|discriminate].
  destruct (truthy relayState).
  { destruct (logout req); [discriminate|]. intros H; inversion H. left. eauto. }
  destruct (service self req) as [svc|e]; cbn [bind]; [|discriminate].
  destruct (parse_url_query (url req)) as [parsedReq|e]; cbn [bind]; [|discriminate].
  destruct (negb (truthy (obj_get "ticket" (query parsedReq)))).
  - destruct (url_parse_query _) as [redirectURL|e]; cbn [bind]; [|discriminate].
    destruct (get _ "loginParams") as [loginParams|e]; cbn [bind]; [|discriminate].
    intros H; inversion H. right. left. eauto.
  - destruct (truthy (useSaml self)); intros H; inversion H; right; right; eauto.
Qed.

Lemma validate_errors_are_objects (v : Validator) (body : string) (err : jsval) :
  validate v body = Verified err -> exists m, err = new_Error m.
Proof.
  destruct v; cbn [validate].
  - rewrite validate_cas1_reading. unfold cas1_reading.
    repeat match goal with
           | |- context [if ?b then _ else _] => destruct b
           | |- context [match after ?s ?t with _ => _ end] => destruct (after s t)
           end; intros H; inversion H; eauto.
  - unfold validate_cas3. destruct (parseString body) as [|result].
    { intros H; inversion H; eauto. }
    unfold cas3_try.
    repeat match goal with
           | |- context [bind ?m _] => destruct m; cbn [bind]
           | |- context [if ?b then _ else _] => destruct b
           end; intros H; inversion H; eauto.
  - unfold validate_saml. destruct (parseString body) as [|result].
    { intros H; inversion H; eauto. }
    unfold saml_try.
    repeat match goal with
           | |- context [bind ?m _] => destruct m; cbn [bind]
           | |- context [if ?b then _ else _] => destruct b
           end; intros H; inversion H; eauto.
Qed.

(** C3 (as amended).  For every validation attempt in which the outbound
    network call to the validation endpoint fails, what is signalled is an
    authentication failure (the Fail variant, through [self.fail]) whose
    info is an [Error] carrying the message of the transport error
    ([Unknown error] when it has none); the attempt is not retried: it has
    issued one outbound call in all.  A protocol-level rejection is told
    apart from it by being signalled through [self.error]. *)
Theorem transport_error_is_fail (self : Strategy) (req : Request)
    (options : jsval) (requestId issueInstant : string)
    (chunks : list string) (message : jsval) (started : list effect) :
  authenticate self req options requestId issueInstant = Ok started ->
  existsb is_request started = true ->
  let info := new_Error (to_string (or_else message (JStr "Unknown error"))) in
  attempt self req options requestId issueInstant
          (map Data chunks ++ [ErrorEvent message])%list
  = Ok (started ++ [EFail info])%list
  /\ count is_request (started ++ [EFail info])%list = 1
  /\ filter is_outcome (started ++ [EFail info])%list = [EFail info]
  /\ forall body,
       match validate (validator self) body with
       | Verified err => _validate self req body = [EError err]
       | CallVerify _ => True
       end.
Proof.
  intros A R info. unfold attempt. rewrite A. cbn [bind]. rewrite R.
  rewrite run_data. cbn [run handle]. fold info.
  destruct (authenticate_shapes _ _ _ _ _ _ A) as [[l ->]|[[l ->]|[r ->]]];
    try discriminate R.
  repeat split.
  intros body. unfold _validate.
  destruct (validate (validator self) body) as [err|profile] eqn:V; [|exact I].
  destruct (validate_errors_are_objects _ _ _ V) as [m ->]. reflexivity.
Qed.




Lemma format_hash_query (u : UrlObject obj) (q : obj) :
  format_hash (delete_search (set_query u q)) = format_hash u
  /\ format_hash (set_query u q) = format_hash u.
Proof. split; reflexivity. Qed.

Lemma service_formats (self : Strategy) (req : Request)
    (base relative resolved : string) (u : UrlObject obj) :
  serverBaseURL self = JStr base ->
  or_else (serviceURL self) (originalUrl req) = JStr relative ->
  url_resolve base relative = Ok resolved ->
  url_parse_query resolved = Ok u ->
  service self req
  = Ok (url_format (delete_search (set_query u (obj_delete "ticket" (query u))))).
Proof.
  intros B R V U. unfold service. rewrite B, R.
  cbn [resolve_url bind]. rewrite V. cbn [bind]. rewrite U. cbn [bind].
  destruct u as [? ? ? ? ? ? ? s ? ? ? ?]; destruct s; reflexivity.
Qed.


(** C8 (as amended).  Strategy construction fails (throws) if no verify
    function is supplied, and fails if the version in effect, which is the
    configured version or [CAS1.0] when none is configured or the configured
    one is falsy, is not one of [CAS1.0] or [CAS3.0]; the invariant
    version in {CAS1.0, CAS3.0} holds for every constructed strategy. *)
Theorem construct_checks :
  (forall o,
     construct (ArgOptions o) None
     = Throw (Error "cas authentication strategy requires a verify function"))
  /\ (forall o verify,
        ~ supported (effective_version o) ->
        exists e, construct (ArgOptions o) verify = Throw e)
  /\ (forall o verify self,
        construct (ArgOptions o) verify = Ok self ->
        version self = effective_version o)
  /\ (forall arg verify self,
        construct arg verify = Ok self -> supported (version self)).
Proof.
  assert (S : forall o verify self,
             construct (ArgOptions o) verify = Ok self ->
             version self = effective_version o /\ supported (version self)).
  { intros o verify self. unfold construct, effective_version, supported.
    destruct verify as [f|]; [|discriminate].
    destruct (parse_url (Options.ssoBaseURL o)) as [u|e]; cbn [bind];
      [|discriminate].
    destruct (or_else (Options.version o) (JStr "CAS1.0")) as [| | b | s | m | l | l];
      cbn [strict_eq_str]; try discriminate.
    destruct (String.eqb s "CAS1.0") eqn:E1.
    { apply String.eqb_eq in E1. subst s. intros H; injection H as <-.
      cbn. auto. }
    destruct (String.eqb s "CAS3.0") eqn:E3; [|discriminate].
    apply String.eqb_eq in E3. subst s.
    destruct (truthy _); intros H; injection H as <-; cbn; auto. }
  split; [reflexivity|]. split; [|split].
  - intros o verify N.
    destruct (construct (ArgOptions o) verify) as [self|e] eqn:C; [|eauto].
    destruct (S _ _ _ C) as [V K]. rewrite V in K. contradiction.
  - intros o verify self C. apply (S _ _ _ C).
  - intros [o|f] verify self C.
    + apply (S _ _ _ C).
    + apply (S Options.empty (Some f) self). exact C.
Qed.

Lemma add_login_params_get (l : list (string * jsval)) : forall (q : obj) k,
  obj_get k
    (fold_left (fun q '(property, loginParam) =>
                  if truthy loginParam then obj_set property loginParam q else q)
               l q)
  = match last_value k (filter (fun kv => truthy (snd kv)) l) with
    | Some v => v
    | None => obj_get k q
    end.
Proof.
  induction l as [|[p v] l IH]; intros q k; [reflexivity|].
  cbn [fold_left filter snd]. rewrite IH.
  destruct (truthy v); [|reflexivity].
  cbn [last_value].
  destruct (last_value k _); [reflexivity|].
  rewrite obj_get_set. destruct (String.eqb k p); reflexivity.
Qed.

Lemma add_login_params_keys (l : list (string * jsval)) : forall (q : obj) k,
  has_key k
    (fold_left (fun q '(property, loginParam) =>
                  if truthy loginParam then obj_set property loginParam q else q)
               l q)
  = has_key k (filter (fun kv => truthy (snd kv)) l) || has_key k q.
Proof.
  induction l as [|[p v] l IH]; intros q k; [reflexivity|].
  cbn [fold_left filter snd]. rewrite IH.
  destruct (truthy v); [|reflexivity].
  rewrite has_key_set.
  change (has_key k ((p, v) :: filter (fun kv => truthy (snd kv)) l))
    with (String.eqb k p || has_key k (filter (fun kv => truthy (snd kv)) l)).
  destruct (String.eqb k p), (has_key k (filter _ l)), (has_key k q); reflexivity.
Qed.

Lemma stringify_field (q : obj) (k v : string) :
  obj_get k q = JStr v ->
  In ((Querystring.escape k ++ "=") ++ Querystring.escape v)
     (flat_map Querystring.fields (enumerate q)).
Proof.
  intros G. apply in_flat_map. exists (k, JStr v). split.
  - apply enumerate_In. apply (obj_get_In _ _ _ G). discriminate.
  - left. reflexivity.
Qed.

(** C9 (as amended).  For every request carrying no ticket (and no relay
    state, which [authenticate] looks at first), when [url.parse] accepts
    the login URL and the configured [ssoBaseURL] holds no query string,
    the redirect goes to the SSO login URL followed by the query string
    that [querystring.stringify] makes of these parameters, in the order
    JavaScript enumerates them: [service], set to the canonical service URL
    unless a login parameter named [service] with a truthy value replaces
    it, and, of the caller-supplied extra login parameters, exactly those
    with truthy values: a parameter with a falsy value adds no key.  With
    login parameters [{renew: 'true', foo: ''}] the query string holds
    [renew=true] and no [foo]. *)
Theorem login_redirect (self : Strategy) (req : Request) (options : jsval)
    (requestId issueInstant : string) (relayState : jsval) (canonical : string)
    (parsedReq login : UrlObject obj) (loginParams : jsval) :
  get (req_query req) "RelayState" = Ok relayState ->
  truthy relayState = false ->
  service self req = Ok canonical ->
  parse_url_query (url req) = Ok parsedReq ->
  truthy (obj_get "ticket" (query parsedReq)) = false ->
  url_parse_query (to_string (ssoBase self) ++ "/login") = Ok login ->
  truthy (search login) = false ->
  get (match options with JUndef => JObj [] | _ => options end) "loginParams"
    = Ok loginParams ->
  let q := add_login_params loginParams
             (obj_set "service" (JStr canonical) (query login)) in
  let fields := flat_map Querystring.fields (enumerate q) in
  authenticate self req options requestId issueInstant
  = Ok [ERedirect
          (format_location (protocol login) (slashes login) (auth login)
                           (host login) (port login) (hostname login)
                           (pathname login)
           ++ (if String.eqb (Querystring.join "&" fields) EmptyString
               then EmptyString
               else "?" ++ Querystring.join "&" fields)
           ++ format_hash login)]
  /\ (forall k,
        obj_get k q
        = match last_value k (forwarded loginParams) with
          | Some v => v
          | None => if String.eqb k "service" then JStr canonical
                    else obj_get k (query login)
          end)
  /\ (forall k,
        has_key k q
        = has_key k (forwarded loginParams)
          || String.eqb k "service" || has_key k (query login))
  /\ (forall f, In f fields <-> exists kv, In kv q /\ In f (Querystring.fields kv))
  /\ (forall k v,
        obj_get k q = JStr v ->
        In ((Querystring.escape k ++ "=") ++ Querystring.escape v) fields).
Proof.
  intros R F S U T L N O q fields.
  split; [|split; [|split; [|split]]].
  - unfold authenticate. rewrite R. cbn [bind]. rewrite F, S. cbn [bind].
    rewrite U. cbn [bind]. rewrite T. cbn [negb]. rewrite L. cbn [bind].
    rewrite O. cbn [bind]. fold q. do 3 f_equal.
    unfold url_format. rewrite format_search_rebuilt by exact N.
    reflexivity.
  - intros k. unfold q, add_login_params, forwarded.
    rewrite add_login_params_get, obj_get_set. reflexivity.
  - intros k. unfold q, add_login_params, forwarded.
    rewrite add_login_params_keys, has_key_set, orb_assoc. reflexivity.
  - intros f. unfold fields. rewrite in_flat_map. split.
    + intros [kv [I G]]. exists kv. split; [apply enumerate_In, I | exact G].
    + intros [kv [I G]]. exists kv. split; [apply enumerate_In, I | exact G].
  - intros k v G. exact (stringify_field q k v G).
Qed.

End Properties.

(* ------------------------------------------------------------------ *)
(** ** Further properties of the strategy                              *)
(* ------------------------------------------------------------------ *)

Section Further.
Context {P : Platform}.

(** *** Lines and suffixes *)

Lemma after_none_before (sep : ascii) (s : string) :
  after sep s = None -> before sep s = s.
Proof.
  induction s as [|c s IH]; cbn; [reflexivity|].
  destruct (Ascii.eqb c sep); [discriminate|].
  intros H. rewrite (IH H). reflexivity.
Qed.

Lemma after_some_joins (sep : ascii) (s rest : string) :
  after sep s = Some rest -> s = before sep s ++ String sep rest.
Proof.
  induction s as [|c s IH]; cbn; [discriminate|].
  destruct (Ascii.eqb c sep) eqn:E.
  - apply Ascii.eqb_eq in E. subst c. intros H. injection H as ->. reflexivity.
  - intros H. cbn. rewrite <- (IH H). reflexivity.
Qed.

Lemma before_is_one_piece (sep : ascii) (s : string) :
  after sep (before sep s) = None.
Proof.
  induction s as [|c s IH]; cbn; [reflexivity|].
  destruct (Ascii.eqb c sep) eqn:E; cbn; [reflexivity|].
  rewrite E. exact IH.
Qed.

Lemma before_join (sep : ascii) (u rest : string) :
  after sep u = None ->
  before sep (u ++ String sep rest) = u
  /\ after sep (u ++ String sep rest) = Some rest.
Proof.
  induction u as [|c u IH]; cbn.
  - rewrite Ascii.eqb_refl. split; reflexivity.
  - destruct (Ascii.eqb c sep); [discriminate|].
    intros H. destruct (IH H) as [B A]. rewrite B, A. split; reflexivity.
Qed.

Lemma split_not_empty (sep : ascii) (s : string) : split sep s <> [].
Proof. rewrite split_before_after. discriminate. Qed.

(** [body.split(sep).join(sep)] gives [body] back, and no piece of the
    split holds the separator. *)
Theorem split_concat (sep : ascii) (s : string) :
  String.concat (String sep EmptyString) (split sep s) = s
  /\ Forall (fun piece => after sep piece = None) (split sep s).
Proof.
  split.
  - induction s as [|c s IH]; [reflexivity|].
    cbn [split]. destruct (Ascii.eqb c sep) eqn:E.
    + apply Ascii.eqb_eq in E. subst c.
      destruct (split sep s) as [|h t] eqn:S; [destruct (split_not_empty _ _ S)|].
      change (String.concat (String sep EmptyString) (EmptyString :: h :: t))
        with (String sep (String.concat (String sep EmptyString) (h :: t))).
      rewrite IH. reflexivity.
    + destruct (split sep s) as [|h t] eqn:S; [destruct (split_not_empty _ _ S)|].
      rewrite <- IH. destruct t; reflexivity.
  - induction s as [|c s IH]; [repeat constructor|].
    cbn [split]. destruct (Ascii.eqb c sep) eqn:E.
    + constructor; [reflexivity | exact IH].
    + destruct (split sep s) as [|h t]; [repeat constructor; cbn; rewrite E; reflexivity|].
      inversion IH as [|? ? Hh Ht]; subst.
      constructor; [cbn; rewrite E; exact Hh | exact Ht].
Qed.

Lemma ends_with_split (suffix s : string) :
  ends_with suffix s = true <-> exists p, s = p ++ suffix.
Proof.
  split.
  - induction s as [|c s IH]; cbn [ends_with].
    + destruct (String.eqb EmptyString suffix) eqn:E; [|discriminate].
      apply String.eqb_eq in E. intros _. exists EmptyString. exact E.
    + destruct (String.eqb (String c s) suffix) eqn:E.
      * apply String.eqb_eq in E. intros _. exists EmptyString. exact E.
      * intros H. destruct (IH H) as [p ->]. exists (String c p). reflexivity.
  - intros [p ->]. induction p as [|c p IH].
    + cbn [append]. destruct suffix; cbn [ends_with];
        rewrite String.eqb_refl; reflexivity.
    + cbn [append ends_with]. rewrite IH.
      destruct (String.eqb _ suffix); reflexivity.
Qed.

(** [v.match(/Success$/)] is truthy exactly for the strings that end in
    [Success], whatever precedes it, and throws for every value that is
    not a string. *)
Theorem match_Success_iff (v : jsval) :
  ((exists m, match_Success v = Ok m /\ truthy m = true)
   <-> exists p, v = JStr (p ++ "Success"))
  /\ (match_Success v = Throw TypeError <-> is_string v = false).
Proof.
  split; split.
  - intros [m [M T]]. destruct v; try discriminate M.
    cbn [match_Success] in M. injection M as <-.
    destruct (ends_with "Success" s) eqn:E; [|discriminate T].
    destruct (proj1 (ends_with_split _ _) E) as [p ->]. exists p. reflexivity.
  - intros [p ->]. cbn [match_Success].
    rewrite (proj2 (ends_with_split "Success" (p ++ "Success")));
      [|exists p; reflexivity].
    eexists. split; reflexivity.
  - destruct v; cbn; intros H; try reflexivity. discriminate H.
  - destruct v; cbn; intros H; try reflexivity. discriminate H.
Qed.

(** *** CAS1.0 *)

(** The CAS1.0 parser hands a principal to the verify function exactly
    for the bodies [yes\n<user>] and [yes\n<user>\n<anything>], where
    [<user>] holds no newline; the principal is the string [<user>]. *)
Theorem cas1_accepts_iff (body : string) (principal : jsval) :
  validate_cas1 body = CallVerify principal
  <-> exists user,
        principal = JStr user /\ one_line user
        /\ (body = "yes" ++ Sample.nl ++ user
            \/ exists rest, body = "yes" ++ Sample.nl ++ user ++ Sample.nl ++ rest).
Proof.
  rewrite validate_cas1_reading. unfold cas1_reading, one_line, Sample.nl. split.
  - destruct (String.eqb (before "010" body) "no"); [discriminate|].
    destruct (String.eqb (before "010" body) "yes") eqn:Y; [|discriminate].
    apply String.eqb_eq in Y.
    destruct (after "010" body) as [rest|] eqn:A; [|discriminate].
    intros H. injection H as <-.
    exists (before "010" rest).
    split; [reflexivity|]. split; [apply before_is_one_piece|].
    rewrite (after_some_joins _ _ _ A), Y.
    destruct (after "010" rest) as [rest'|] eqn:A'.
    + right. exists rest'. cbn. rewrite <- (after_some_joins _ _ _ A'). reflexivity.
    + left. rewrite (after_none_before _ _ A'). reflexivity.
  - intros [user [-> [U [-> | [rest ->]]]]]; cbn.
    + rewrite (after_none_before _ _ U). reflexivity.
    + destruct (before_join "010" user rest U) as [B _].
      cbn in B. rewrite B. reflexivity.
Qed.

(** The CAS1.0 parser reports [Authentication failed] exactly for the body
    [no] and the bodies that start with the line [no]. *)
Theorem cas1_denies_iff (body : string) :
  validate_cas1 body = Verified (new_Error "Authentication failed")
  <-> body = "no" \/ exists rest, body = "no" ++ Sample.nl ++ rest.
Proof.
  rewrite validate_cas1_reading. unfold cas1_reading, Sample.nl. split.
  - destruct (String.eqb (before "010" body) "no") eqn:N.
    + apply String.eqb_eq in N. intros _.
      destruct (after "010" body) as [rest|] eqn:A.
      * right. exists rest. rewrite (after_some_joins _ _ _ A), N. reflexivity.
      * left. rewrite <- (after_none_before _ _ A). exact N.
    + destruct (String.eqb (before "010" body) "yes");
        [destruct (after "010" body)|]; discriminate.
  - intros [-> | [rest ->]]; reflexivity.
Qed.

(** The CAS1.0 parser reports [The response from the server was bad]
    exactly when the first line is neither [no] nor [yes], or the body is
    [yes] with nothing after it. *)
Theorem cas1_malformed_iff (body : string) :
  validate_cas1 body
  = Verified (new_Error "The response from the server was bad")
  <-> (before "010" body <> "no" /\ before "010" body <> "yes")
      \/ body = "yes".
Proof.
  rewrite validate_cas1_reading. unfold cas1_reading. split.
  - destruct (String.eqb (before "010" body) "no") eqn:N; [discriminate|].
    apply String.eqb_neq in N.
    destruct (String.eqb (before "010" body) "yes") eqn:Y.
    + apply String.eqb_eq in Y.
      destruct (after "010" body) as [rest|] eqn:A; [discriminate|].
      intros _. right. rewrite <- (after_none_before _ _ A). exact Y.
    + apply String.eqb_neq in Y. intros _. left. split; assumption.
  - intros [[N Y] | ->]; [|reflexivity].
    apply String.eqb_neq in N. apply String.eqb_neq in Y. rewrite N, Y.
    reflexivity.
Qed.

(** *** CAS3.0 *)

(** A CAS3.0 response whose root holds an [authenticationfailure] node,
    that is a truthy [authenticationfailure] property (an element with
    text, attributes or children; not an empty element, which xml2js
    renders as the empty string), is never accepted, whatever else it holds
    (an [authenticationsuccess] node included): the parser reports the
    error of that node, whose message starts with [Authentication
    failed]. *)
Theorem cas3_failure_wins (body : string) (result failure : jsval) :
  parseString body = XmlResult result ->
  node result "authenticationfailure" = Some failure ->
  validate_cas3 body = Verified (new_Error (failure_message failure))
  /\ String.prefix "Authentication failed" (failure_message failure) = true.
Proof.
  intros X N. unfold validate_cas3, failure_message.
  rewrite X, (cas3_try_failure _ _ N).
  destruct (get_path failure ["$"; "code"]) as [c|e]; cbn [bind];
    split; reflexivity.
Qed.

(** The CAS3.0 parser hands a principal to the verify function exactly
    when the body is well-formed, the root response has no
    [authenticationfailure] node and has an [authenticationsuccess] node;
    the principal is that node, and so is never [undefined], [null] or
    empty. *)
Theorem cas3_accepts_iff (body : string) (principal : jsval) :
  validate_cas3 body = CallVerify principal
  <-> exists result,
        parseString body = XmlResult result
        /\ node result "authenticationfailure" = None
        /\ node result "authenticationsuccess" = Some principal
        /\ truthy principal = true.
Proof.
  unfold validate_cas3. split.
  - destruct (parseString body) as [|result]; [discriminate|].
    destruct (node result "authenticationfailure") as [failure|] eqn:N.
    + rewrite (cas3_try_failure _ _ N).
      destruct (get_path failure ["$"; "code"]); discriminate.
    + rewrite (cas3_try_no_failure _ N).
      destruct (node result "authenticationsuccess") as [success|] eqn:S;
        [|discriminate].
      intros H. injection H as <-. exists result.
      split; [reflexivity|]. split; [exact N|]. split; [exact S|].
      apply (node_some _ _ _ S).
  - intros [result [-> [N [S _]]]].
    rewrite (cas3_try_no_failure _ N), S. reflexivity.
Qed.

(** *** SAML *)

Lemma saml_try_values (result : jsval) (v : validation) :
  saml_try result = Ok v ->
  v = Verified (new_Error "Authentication failed")
  \/ exists profile, v = CallVerify profile.
Proof.
  unfold saml_try.
  repeat match goal with
         | |- context [bind ?m _] => destruct m; cbn [bind]
         | |- context [if ?b then _ else _] => destruct b
         end; intros H; inversion H; eauto.
Qed.

Lemma saml_try_accepts (result response attribute user : jsval)
    (value : string) (attributes : obj) :
  get_path result response_path = Ok response ->
  get_path response ["status"; "statuscode"; "$"; "Value"] = Ok (JStr value) ->
  ends_with "Success" value = true ->
  get_path response ["assertion"; "attributestatement"; "attribute"] = Ok attribute ->
  collect_attributes [] (each_values attribute) = Ok attributes ->
  get_path response
    ["assertion"; "authenticationstatement"; "subject"; "nameidentifier"] = Ok user ->
  saml_try result
  = Ok (CallVerify (JObj [("user", user); ("attributes", JObj attributes)])).
Proof.
  intros R V E A C U. unfold saml_try. fold response_path.
  rewrite R. cbn [bind]. rewrite V. cbn [bind match_Success]. rewrite E.
  cbn [truthy]. rewrite A. cbn [bind]. rewrite C. cbn [bind]. rewrite U.
  reflexivity.
Qed.

Lemma saml_try_accepted (result profile : jsval) :
  saml_try result = Ok (CallVerify profile) ->
  exists response value attribute attributes user,
    get_path result response_path = Ok response
    /\ get_path response ["status"; "statuscode"; "$"; "Value"] = Ok (JStr value)
    /\ ends_with "Success" value = true
    /\ get_path response ["assertion"; "attributestatement"; "attribute"]
       = Ok attribute
    /\ collect_attributes [] (each_values attribute) = Ok attributes
    /\ get_path response
         ["assertion"; "authenticationstatement"; "subject"; "nameidentifier"]
       = Ok user
    /\ profile = JObj [("user", user); ("attributes", JObj attributes)].
Proof.
  unfold saml_try. fold response_path.
  destruct (get_path result response_path) as [response|e] eqn:R; cbn [bind];
    [|discriminate].
  destruct (get_path response ["status"; "statuscode"; "$"; "Value"])
    as [v|e] eqn:V; cbn [bind]; [|discriminate].
  destruct v as [| | b | value | m | fields | items];
    cbn [match_Success bind]; try discriminate.
  destruct (ends_with "Success" value) eqn:E; cbn [truthy]; [|discriminate].
  destruct (get_path response ["assertion"; "attributestatement"; "attribute"])
    as [attribute|e] eqn:A; cbn [bind]; [|discriminate].
  destruct (collect_attributes [] (each_values attribute)) as [attributes|e] eqn:C;
    cbn [bind]; [|discriminate].
  destruct (get_path response
              ["assertion"; "authenticationstatement"; "subject"; "nameidentifier"])
    as [user|e] eqn:U; cbn [bind]; [|discriminate].
  intros H. injection H as <-.
  exists response, value, attribute, attributes, user. repeat split; assumption.
Qed.

Lemma validate_saml_values (body : string) (result : jsval) :
  parseString body = XmlResult result ->
  validate_saml body = Verified (new_Error "Authentication failed")
  \/ exists profile,
       saml_try result = Ok (CallVerify profile)
       /\ validate_saml body = CallVerify profile.
Proof.
  intros X. unfold validate_saml. rewrite X.
  destruct (saml_try result) as [v|e] eqn:T; [|left; reflexivity].
  destruct (saml_try_values _ _ T) as [-> | [profile ->]];
    [left; reflexivity | right; eauto].
Qed.

(** The SAML parser hands a profile to the verify function exactly when
    the body is well-formed, the status code ends in [Success], the
    attribute statement and the subject can be read, and every attribute
    visited can be recorded; the profile then holds the name identifier as
    [user] (as it was read, [undefined] included) and the recorded
    attributes. *)
Theorem saml_accepts_iff (body : string) (profile : jsval) :
  validate_saml body = CallVerify profile
  <-> exists result response value attribute attributes user,
        parseString body = XmlResult result
        /\ get_path result response_path = Ok response
        /\ get_path response ["status"; "statuscode"; "$"; "Value"] = Ok (JStr value)
        /\ (exists p, value = p ++ "Success")
        /\ get_path response ["assertion"; "attributestatement"; "attribute"]
           = Ok attribute
        /\ collect_attributes [] (each_values attribute) = Ok attributes
        /\ get_path response
             ["assertion"; "authenticationstatement"; "subject"; "nameidentifier"]
           = Ok user
        /\ profile = JObj [("user", user); ("attributes", JObj attributes)].
Proof.
  split.
  - intros H. destruct (parseString body) as [|result] eqn:X.
    { unfold validate_saml in H. rewrite X in H. discriminate H. }
    destruct (validate_saml_values _ _ X) as [F | [profile' [T V]]].
    { rewrite F in H. discriminate H. }
    rewrite V in H. injection H as ->.
    destruct (saml_try_accepted _ _ T)
      as [response [value [attribute [attributes [user [R [S [E [A [C [U ->]]]]]]]]]]].
    exists result, response, value, attribute, attributes, user.
    repeat split; try assumption.
    apply (proj1 (ends_with_split _ _) E).
  - intros [result [response [value [attribute [attributes [user
             [X [R [S [E [A [C [U ->]]]]]]]]]]]]].
    unfold validate_saml. rewrite X.
    rewrite (saml_try_accepts _ _ _ _ _ _ R S (proj2 (ends_with_split _ _) E) A C U).
    reflexivity.
Qed.

Lemma add_attribute_throws (o : obj) (node : jsval) (e : exception) :
  add_attribute o node = Throw e -> e = TypeError.
Proof.
  unfold add_attribute.
  destruct (get node "$") as [a|e1] eqn:G1; cbn [bind].
  2:{ intros H; injection H as <-. exact (get_throws _ _ _ G1). }
  destruct (get a "AttributeName") as [n|e2] eqn:G2; cbn [bind].
  2:{ intros H; injection H as <-. exact (get_throws _ _ _ G2). }
  destruct (toLowerCase n) as [key|e3] eqn:L; cbn [bind].
  2:{ intros H; injection H as <-. destruct n; cbn in L; inversion L; reflexivity. }
  destruct (get node "attributevalue") as [value|e4] eqn:G4; cbn [bind].
  2:{ intros H; injection H as <-. exact (get_throws _ _ _ G4). }
  discriminate.
Qed.

Lemma add_attribute_not_ok (o : obj) (node : jsval) :
  attribute_ok node = false -> add_attribute o node = Throw TypeError.
Proof.
  unfold attribute_ok, add_attribute. cbn [get_path].
  destruct (get node "$") as [a|e1] eqn:G1; cbn [bind].
  2:{ intros _. rewrite (get_throws _ _ _ G1). reflexivity. }
  destruct (get a "AttributeName") as [n|e2] eqn:G2; cbn [bind].
  2:{ intros _. rewrite (get_throws _ _ _ G2). reflexivity. }
  destruct n; cbn [toLowerCase bind]; try reflexivity. discriminate.
Qed.


Lemma collect_attributes_not_ok (nodes : list jsval) (x : jsval) :
  In x nodes -> attribute_ok x = false ->
  forall o, collect_attributes o nodes = Throw TypeError.
Proof.
  intros I B. induction nodes as [|node nodes IH]; [destruct I|].
  intros o. cbn [collect_attributes].
  destruct (add_attribute o node) as [o'|e] eqn:A; cbn [bind].
  - destruct I as [-> | I]; [|exact (IH I o')].
    rewrite (add_attribute_not_ok o x B) in A. discriminate A.
  - rewrite (add_attribute_throws _ _ _ A). reflexivity.
Qed.






(** One attribute that cannot be recorded (no attribute object, or no
    string [AttributeName] in it) fails the whole SAML validation with the
    generic [Authentication failed], whatever the status and the other
    attributes. *)
Theorem saml_bad_attribute_fails (body : string) (result attribute x : jsval) :
  parseString body = XmlResult result ->
  get_path result
    (response_path ++ ["assertion"; "attributestatement"; "attribute"])
  = Ok attribute ->
  In x (each_values attribute) ->
  attribute_ok x = false ->
  validate_saml body = Verified (new_Error "Authentication failed").
Proof.
  intros X A I B.
  destruct (validate_saml_values _ _ X) as [F | [profile [T _]]]; [exact F|].
  exfalso.
  destruct (saml_try_accepted _ _ T)
    as [response [value [attribute' [attributes [user [R [_ [_ [A' [C _]]]]]]]]]].
  rewrite get_path_app, R in A. cbn [bind] in A. rewrite A in A'.
  injection A' as <-.
  rewrite (collect_attributes_not_ok _ _ I B []) in C. discriminate C.
Qed.

(** For the two XML protocols, [The response from the server was bad] is
    reported exactly when the body is not well-formed XML. *)
Theorem bad_response_iff_malformed (v : Validator) (body : string) :
  v <> Cas10 ->
  (validate v body = Verified (new_Error "The response from the server was bad")
   <-> parseString body = XmlError).
Proof.
  intros N. destruct v; [contradiction | |]; cbn [validate]; split.
  - unfold validate_cas3. destruct (parseString body) as [|result]; [reflexivity|].
    destruct (node result "authenticationfailure") as [failure|] eqn:F.
    + rewrite (cas3_try_failure _ _ F).
      destruct (get_path failure ["$"; "code"]); discriminate.
    + rewrite (cas3_try_no_failure _ F).
      destruct (node result "authenticationsuccess"); discriminate.
  - unfold validate_cas3. intros ->. reflexivity.
  - destruct (parseString body) as [|result] eqn:X; [reflexivity|].
    destruct (validate_saml_values _ _ X) as [-> | [profile [_ ->]]]; discriminate.
  - unfold validate_saml. intros ->. reflexivity.
Qed.

(** *** The constructor *)

Lemma construct_inversion (o : Options.t) (verify : option verify_fn)
    (self : Strategy) :
  construct (ArgOptions o) verify = Ok self ->
  exists f s u uri v,
    verify = Some f /\ Options.ssoBaseURL o = JStr s /\ url_parse s = Ok u
    /\ self = mkStrategy (effective_version o) (JStr s)
                (Options.serverBaseURL o) (Options.validateURL o)
                (Options.serviceURL o)
                (or_else (Options.useSaml o) (JBool false)) u
                (if strict_eq_str (protocol u) "http:" then http else https)
                "cas" f (Options.passReqToCallback o) uri v
    /\ ((effective_version o = JStr "CAS1.0" /\ uri = "/validate" /\ v = Cas10)
        \/ (effective_version o = JStr "CAS3.0"
            /\ truthy (Options.useSaml o) = false
            /\ uri = "/p3/serviceValidate" /\ v = Cas30)
        \/ (effective_version o = JStr "CAS3.0"
            /\ truthy (Options.useSaml o) = true
            /\ uri = "/samlValidate" /\ v = Saml)).
Proof.
  unfold construct, effective_version.
  destruct verify as [f|]; [|discriminate].
  destruct (Options.ssoBaseURL o) as [| | b | s | m | l | l];
    cbn [parse_url bind]; try discriminate.
  destruct (url_parse s) as [u|e] eqn:PU; cbn [bind]; [|discriminate].
  assert (U : truthy (or_else (Options.useSaml o) (JBool false))
              = truthy (Options.useSaml o)).
  { unfold or_else. destruct (truthy (Options.useSaml o)) eqn:T; [exact T | reflexivity]. }
  rewrite U.
  destruct (or_else (Options.version o) (JStr "CAS1.0")) as [| | b | w | m | l | l];
    cbn [strict_eq_str]; try discriminate.
  destruct (String.eqb w "CAS1.0") eqn:E1.
  { apply String.eqb_eq in E1. subst w. intros H. injection H as <-.
    exists f, s, u, "/validate", Cas10. auto 10. }
  destruct (String.eqb w "CAS3.0") eqn:E3; [|discriminate].
  apply String.eqb_eq in E3. subst w.
  destruct (truthy (Options.useSaml o)) eqn:T; intros H; injection H as <-.
  - exists f, s, u, "/samlValidate", Saml. auto 10.
  - exists f, s, u, "/p3/serviceValidate", Cas30. auto 10.
Qed.

Lemma construct_function_form (f : verify_fn) (verify : option verify_fn) :
  construct (ArgFunction f) verify = Throw TypeError.
Proof. reflexivity. Qed.

(** Construction succeeds exactly when it is given an options object and a
    verify argument, [ssoBaseURL] is a string that [url.parse] accepts, and
    the version in effect is [CAS1.0] or [CAS3.0].  In particular the
    one-argument form [new Strategy(verify)] never yields a strategy: it
    has no [ssoBaseURL] to parse. *)
Theorem construct_succeeds_iff (arg : ctor_arg) (verify : option verify_fn) :
  ((exists self, construct arg verify = Ok self)
   <-> exists o f s u,
         arg = ArgOptions o /\ verify = Some f
         /\ Options.ssoBaseURL o = JStr s /\ url_parse s = Ok u
         /\ supported (effective_version o))
  /\ (forall f, construct (ArgFunction f) verify = Throw TypeError).
Proof.
  split; [|intros f; apply construct_function_form].
  split.
  - intros [self C]. destruct arg as [o|g].
    + destruct (construct_inversion _ _ _ C)
        as [f [s [u [uri [v [-> [B [PU [_ K]]]]]]]]].
      exists o, f, s, u. repeat split; [exact B | exact PU |]. unfold supported.
      destruct K as [[V _] | [[V _] | [V _]]]; auto.
    + rewrite construct_function_form in C. discriminate C.
  - intros [o [f [s [u [-> [-> [B [PU K]]]]]]]].
    unfold construct. fold (effective_version o). rewrite B. cbn [parse_url].
    rewrite PU. cbn [bind].
    destruct K as [-> | ->]; cbn [strict_eq_str String.eqb].
    + eexists. reflexivity.
    + destruct (truthy _); eexists; reflexivity.
Qed.

(** Every constructed strategy is named [cas], holds a string [ssoBase]
    with its parse in [parsed], and pairs its parser with its validation
    path: [/validate] with the CAS1.0 parser under version [CAS1.0];
    under version [CAS3.0], [/samlValidate] with the SAML parser when
    [useSaml] is truthy and [/p3/serviceValidate] with the plain-XML
    parser otherwise. *)
Theorem construct_invariant (arg : ctor_arg) (verify : option verify_fn)
    (self : Strategy) :
  construct arg verify = Ok self ->
  name self = "cas"
  /\ (exists s, ssoBase self = JStr s /\ url_parse s = Ok (parsed self))
  /\ ((version self = JStr "CAS1.0"
       /\ _validateUri self = "/validate" /\ validator self = Cas10)
      \/ (version self = JStr "CAS3.0" /\ truthy (useSaml self) = false
          /\ _validateUri self = "/p3/serviceValidate" /\ validator self = Cas30)
      \/ (version self = JStr "CAS3.0" /\ truthy (useSaml self) = true
          /\ _validateUri self = "/samlValidate" /\ validator self = Saml)).
Proof.
  intros C. destruct arg as [o|g].
  2:{ rewrite construct_function_form in C. discriminate C. }
  destruct (construct_inversion _ _ _ C)
    as [f [s [u [uri [v [_ [_ [PU [-> K]]]]]]]]].
  cbn [name ssoBase parsed version _validateUri validator useSaml].
  split; [reflexivity|]. split; [eauto|].
  assert (U : truthy (or_else (Options.useSaml o) (JBool false))
              = truthy (Options.useSaml o)).
  { unfold or_else. destruct (truthy (Options.useSaml o)) eqn:T; [exact T | reflexivity]. }
  rewrite U.
  destruct K as [[V [-> ->]] | [[V [T [-> ->]]] | [V [T [-> ->]]]]]; auto 10.
Qed.

(** *** [service] *)

Lemma service_inversion (self : Strategy) (req : Request) :
  match service self req with
  | Ok location =>
      exists base relative resolved u,
        serverBaseURL self = JStr base
        /\ or_else (serviceURL self) (originalUrl req) = JStr relative
        /\ url_resolve base relative = Ok resolved
        /\ url_parse_query resolved = Ok u
  | Throw e =>
      (is_string (serverBaseURL self)
       && is_string (or_else (serviceURL self) (originalUrl req)) = false
       /\ e = TypeError)
      \/ exists base relative,
           serverBaseURL self = JStr base
           /\ or_else (serviceURL self) (originalUrl req) = JStr relative
           /\ (url_resolve base relative = Throw e
               \/ exists resolved,
                    url_resolve base relative = Ok resolved
                    /\ url_parse_query resolved = Throw e)
  end.
Proof.
  unfold service.
  destruct (serverBaseURL self) as [| | b | base | m | l | l];
    cbn [resolve_url bind is_string andb]; try (left; split; reflexivity).
  destruct (or_else (serviceURL self) (originalUrl req)) as [| | b | to | m | l | l];
    cbn [resolve_url bind is_string andb]; try (left; split; reflexivity).
  destruct (url_resolve base to) as [resolved|e] eqn:V; cbn [bind].
  2:{ right. exists base, to. auto. }
  destruct (url_parse_query resolved) as [u|e] eqn:U; cbn [bind].
  - exists base, to, resolved, u. auto.
  - right. exists base, to. split; [reflexivity|]. split; [reflexivity|].
    right. exists resolved. auto.
Qed.

(** [service] returns exactly when the configured [serverBaseURL] and the
    service path in effect (the configured [serviceURL], else the
    request's [originalUrl]) are both strings, [url.resolve] accepts them
    and [url.parse] accepts the resolved URL.  Otherwise it throws: a
    [TypeError] when one of the two is not a string, else what
    [url.resolve] or [url.parse] throws. *)
Theorem service_returns_iff (self : Strategy) (req : Request) :
  ((exists location, service self req = Ok location)
   <-> exists base relative resolved u,
         serverBaseURL self = JStr base
         /\ or_else (serviceURL self) (originalUrl req) = JStr relative
         /\ url_resolve base relative = Ok resolved
         /\ url_parse_query resolved = Ok u)
  /\ (forall e,
        service self req = Throw e ->
        (is_string (serverBaseURL self)
         && is_string (or_else (serviceURL self) (originalUrl req)) = false
         /\ e = TypeError)
        \/ exists base relative,
             serverBaseURL self = JStr base
             /\ or_else (serviceURL self) (originalUrl req) = JStr relative
             /\ (url_resolve base relative = Throw e
                 \/ exists resolved,
                      url_resolve base relative = Ok resolved
                      /\ url_parse_query resolved = Throw e)).
Proof.
  pose proof (service_inversion self req) as I.
  split; [split|].
  - intros [location S]. rewrite S in I. exact I.
  - intros [base [relative [resolved [u [B [R [V U]]]]]]].
    rewrite (service_formats _ _ _ _ _ _ B R V U). eauto.
  - intros e S. rewrite S in I. exact I.
Qed.

(** *** [authenticate] *)

(** What [authenticate] does when it returns is decided by the request
    alone: with a truthy [RelayState] it logs out and redirects to the
    logout URL, whatever the ticket; otherwise, without a truthy ticket in
    [req.url] (none, or an empty one) it only redirects; otherwise it only
    issues the validation call. *)
Theorem authenticate_decides (self : Strategy) (req : Request)
    (options : jsval) (requestId issueInstant : string)
    (started : list effect) :
  authenticate self req options requestId issueInstant = Ok started ->
  exists relayState,
    get (req_query req) "RelayState" = Ok relayState
    /\ ((truthy relayState = true
         /\ started
            = [ELogout;
               ERedirect (to_string (ssoBase self)
                          ++ "/logout?_eventId=next&RelayState="
                          ++ to_string relayState)])
        \/ (truthy relayState = false
            /\ exists parsedReq,
                 parse_url_query (url req) = Ok parsedReq
                 /\ ((truthy (obj_get "ticket" (query parsedReq)) = false
                      /\ exists location, started = [ERedirect location])
                     \/ (truthy (obj_get "ticket" (query parsedReq)) = true
                         /\ exists r, started = [ERequest r])))).
Proof.
  intros H. unfold authenticate in H.
  destruct (get (req_query req) "RelayState") as [relayState|e]; cbn [bind] in H;
    [|discriminate H].
  exists relayState. split; [reflexivity|].
  destruct (truthy relayState).
  { left. destruct (logout req); [discriminate H|].
    injection H as <-. split; reflexivity. }
  right. split; [reflexivity|].
  destruct (service self req) as [svc|e]; cbn [bind] in H; [|discriminate H].
  destruct (parse_url_query (url req)) as [parsedReq|e]; cbn [bind] in H;
    [|discriminate H].
  exists parsedReq. split; [reflexivity|].
  destruct (truthy (obj_get "ticket" (query parsedReq))); cbn [negb] in H.
  - right. split; [reflexivity|].
    destruct (truthy (useSaml self)); injection H as <-; eauto.
  - left. split; [reflexivity|].
    destruct (url_parse_query _) as [redirectURL|e]; cbn [bind] in H;
      [|discriminate H].
    destruct (get _ "loginParams") as [loginParams|e]; cbn [bind] in H;
      [|discriminate H].
    injection H as <-. eauto.
Qed.



(** When the parsed login URL has a query string of its own, which is
    so when the configured [ssoBaseURL] holds one, the login redirect is
    that URL as [url.format] writes it back, with that query string:
    neither the service URL nor any login parameter is added. *)
Theorem login_redirect_keeps_search (self : Strategy) (req : Request)
    (options : jsval) (requestId issueInstant : string)
    (relayState : jsval) (parsedReq login : UrlObject obj)
    (started : list effect) :
  authenticate self req options requestId issueInstant = Ok started ->
  get (req_query req) "RelayState" = Ok relayState ->
  truthy relayState = false ->
  parse_url_query (url req) = Ok parsedReq ->
  truthy (obj_get "ticket" (query parsedReq)) = false ->
  url_parse_query (to_string (ssoBase self) ++ "/login") = Ok login ->
  truthy (search login) = true ->
  started
  = [ERedirect
       (format_location (protocol login) (slashes login) (auth login)
                        (host login) (port login) (hostname login)
                        (pathname login)
        ++ led_by "?" (escape_hashes (to_string (search login)))
        ++ format_hash login)].
Proof.
  intros A G R U T L S. unfold authenticate in A.
  rewrite G in A. cbn [bind] in A. rewrite R in A.
  destruct (service self req) as [svc|e]; cbn [bind] in A; [|discriminate A].
  rewrite U in A. cbn [bind] in A. rewrite T in A. cbn [negb] in A.
  rewrite L in A. cbn [bind] in A.
  destruct (get _ "loginParams") as [loginParams|e]; cbn [bind] in A;
    [|discriminate A].
  injection A as <-. do 2 f_equal.
  unfold url_format. rewrite (format_search_kept login _ S).
  unfold format_search. rewrite S. reflexivity.
Qed.

(** The validation call goes to the host and port of the configured
    [ssoBaseURL], through the client chosen at construction, whatever the
    request; it is a [POST] carrying the SOAP envelope when [useSaml] is
    truthy and a [GET] without a body otherwise. *)
Theorem validation_call_target (self : Strategy) (req : Request)
    (options : jsval) (requestId issueInstant : string)
    (started : list effect) (r : ClientRequest) :
  authenticate self req options requestId issueInstant = Ok started ->
  In (ERequest r) started ->
  via r = client self
  /\ to_host r = hostname (parsed self)
  /\ to_port r = port (parsed self)
  /\ (if truthy (useSaml self)
      then method r = "POST"
           /\ exists ticket,
                written r
                = Some (util_format soap_template
                          [JStr requestId; JStr issueInstant; ticket])
      else method r = "GET" /\ written r = None).
Proof.
  unfold authenticate.
  destruct (get (req_query req) "RelayState") as [relayState|e]; cbn [bind];
    [|discriminate].
  destruct (truthy relayState).
  { destruct (logout req); [discriminate|].
    intros H I. injection H as <-. destruct I as [I|[I|[]]]; discriminate I. }
  destruct (service self req) as [svc|e]; cbn [bind]; [|discriminate].
  destruct (parse_url_query (url req)) as [parsedReq|e]; cbn [bind]; [|discriminate].
  destruct (negb _).
  { destruct (url_parse_query _); cbn [bind]; [|discriminate].
    destruct (get _ "loginParams"); cbn [bind]; [|discriminate].
    intros H I. injection H as <-. destruct I as [I|[]]; discriminate I. }
  destruct (truthy (useSaml self)); intros H I; injection H as <-;
    destruct I as [I|[]]; injection I as <-; cbn; eauto 10.
Qed.

Lemma append_empty (s : string) : s ++ EmptyString = s.
Proof. induction s as [|c s IH]; cbn; [reflexivity | f_equal; exact IH]. Qed.

(** The path of the SAML validation call. *)
Lemma saml_path (p : jsval) (service : string) :
  url_format (path_and_query p [("TARGET", JStr service)])
  = format_location JUndef JUndef JUndef JUndef JUndef JUndef p
    ++ "?TARGET=" ++ Querystring.escape service.
Proof.
  unfold url_format. rewrite format_search_rebuilt by reflexivity.
  cbn [path_and_query protocol slashes auth host port hostname pathname query].
  change (Querystring.stringify [("TARGET", JStr service)])
    with ("TARGET=" ++ Querystring.escape service).
  change (format_hash (path_and_query p [("TARGET", JStr service)]))
    with EmptyString.
  cbn [String.eqb append Ascii.eqb Bool.eqb]. rewrite append_empty. reflexivity.
Qed.

(** Options that ask for SAML under version [CAS1.0] give a strategy that
    reads the reply with the CAS1.0 line parser and yet posts the SAML
    envelope, with the service URL as [TARGET], to the validation path in
    effect under the path of [ssoBaseURL]: the configured [validateURL]
    when it is truthy, else [/validate]. *)
Theorem cas1_with_saml_mixes_protocols (o : Options.t)
    (verify : option verify_fn) (self : Strategy) :
  construct (ArgOptions o) verify = Ok self ->
  effective_version o = JStr "CAS1.0" ->
  truthy (Options.useSaml o) = true ->
  validator self = Cas10
  /\ _validateUri self = "/validate"
  /\ forall req options requestId issueInstant r,
       authenticate self req options requestId issueInstant = Ok [ERequest r] ->
       exists location parsedReq,
         service self req = Ok location
         /\ parse_url_query (url req) = Ok parsedReq
         /\ method r = "POST"
         /\ to_path r
            = format_location JUndef JUndef JUndef JUndef JUndef JUndef
                (JStr (to_string (pathname (parsed self))
                       ++ to_string (or_else (Options.validateURL o)
                                             (JStr "/validate"))))
              ++ "?TARGET=" ++ Querystring.escape location
         /\ written r
            = Some (util_format soap_template
                      [JStr requestId; JStr issueInstant;
                       obj_get "ticket" (query parsedReq)]).
Proof.
  intros C V T.
  destruct (construct_inversion _ _ _ C) as [f [s [u [uri [v [_ [_ [_ [-> K]]]]]]]]].
  assert (K' : uri = "/validate" /\ v = Cas10).
  { destruct K as [[_ K] | [[V' _] | [V' _]]]; [exact K | |];
      rewrite V in V'; discriminate V'. }
  destruct K' as [-> ->]. cbn [validator _validateUri].
  split; [reflexivity|]. split; [reflexivity|].
  intros req options requestId issueInstant r. unfold authenticate.
  assert (U : truthy (or_else (Options.useSaml o) (JBool false)) = true).
  { unfold or_else. rewrite T. exact T. }
  cbn [useSaml validateURL _validateUri parsed]. rewrite U.
  destruct (get (req_query req) "RelayState") as [relayState|e]; cbn [bind];
    [|discriminate].
  destruct (truthy relayState); [destruct (logout req); discriminate|].
  destruct (service _ req) as [svc|e]; cbn [bind]; [|discriminate].
  destruct (parse_url_query (url req)) as [parsedReq|e]; cbn [bind]; [|discriminate].
  destruct (negb _).
  { destruct (url_parse_query _); cbn [bind]; [|discriminate].
    destruct (get _ "loginParams"); cbn [bind]; discriminate. }
  intros H. injection H as <-. exists svc, parsedReq.
  cbn [method to_path written]. rewrite saml_path. unfold concat.
  repeat split.
Qed.

(** *** The handlers of the outbound call *)

Lemma verified_outcome_of (err user info : jsval) :
  verified err user info = [outcome_of (err, user, info)].
Proof.
  unfold verified, outcome_of.
  destruct (truthy err); [reflexivity|]. destruct (truthy user); reflexivity.
Qed.

Lemma outcome_of_verdict (call : done_call) : is_verdict (outcome_of call) = true.
Proof.
  destruct call as [[err user] info]. unfold outcome_of.
  destruct (truthy err); [reflexivity|]. destruct (truthy user); reflexivity.
Qed.

Lemma _validate_sources (self : Strategy) (req : Request) (body : string)
    (e : effect) :
  In e (_validate self req body) ->
  (exists err, validate (validator self) body = Verified err /\ e = EError err)
  \/ (exists profile call,
        validate (validator self) body = CallVerify profile
        /\ In call (calls (_verify self
                             (if truthy (_passReqToCallback self)
                              then Some req else None)
                             profile))
        /\ e = outcome_of call)
  \/ (exists profile x,
        validate (validator self) body = CallVerify profile
        /\ thrown (_verify self
                     (if truthy (_passReqToCallback self) then Some req else None)
                     profile) = Some x
        /\ catches (validator self) = true
        /\ e = EError (new_Error "Authentication failed")).
Proof.
  unfold _validate.
  destruct (validate (validator self) body) as [err|profile] eqn:V.
  - destruct (validate_errors_are_objects _ _ _ V) as [m ->].
    intros [<- | []]. left. eauto.
  - intros I. right. apply in_app_or in I. destruct I as [I|I].
    + left. apply in_flat_map in I. destruct I as [[[err user] info] [C I]].
      rewrite verified_outcome_of in I. destruct I as [<- | []].
      exists profile, (err, user, info). auto.
    + right. destruct (thrown _) as [x|] eqn:X; [|destruct I].
      destruct (catches (validator self)) eqn:K; [|destruct I].
      destruct I as [<- | []]. exists profile, x. auto.
Qed.

Lemma run_sources (self : Strategy) (req : Request)
    (events : list TransportEvent) (e : effect) :
  forall body,
    In e (run self req body events) ->
    (exists message,
       In (ErrorEvent message) events
       /\ e = EFail (new_Error (to_string (or_else message (JStr "Unknown error")))))
    \/ exists body', In e (_validate self req body').
Proof.
  induction events as [|ev events IH]; intros body; [intros []|].
  cbn [run]. destruct ev as [chunk| |message]; cbn [handle]; intros I;
    apply in_app_or in I; destruct I as [I|I].
  - destruct I.
  - destruct (IH _ I) as [[m [M E]] | R]; [left; exists m; split; [right|]; auto | auto].
  - right. eauto.
  - destruct (IH _ I) as [[m [M E]] | R]; [left; exists m; split; [right|]; auto | auto].
  - destruct I as [<- | []]. left. exists message. split; [left|]; reflexivity.
  - destruct (IH _ I) as [[m [M E]] | R]; [left; exists m; split; [right|]; auto | auto].
Qed.

Lemma attempt_verdict_in_run (self : Strategy) (req : Request) (options : jsval)
    (requestId issueInstant : string) (events : list TransportEvent)
    (effects : list effect) (e : effect) :
  attempt self req options requestId issueInstant events = Ok effects ->
  In e effects -> is_verdict e = true ->
  In e (run self req EmptyString events).
Proof.
  unfold attempt.
  destruct (authenticate self req options requestId issueInstant)
    as [started|x] eqn:A; cbn [bind]; [|discriminate].
  destruct (authenticate_shapes _ _ _ _ _ _ A) as [[l ->]|[[l ->]|[r ->]]];
    cbn [existsb is_request orb]; intros H I V; injection H as <-.
  - destruct I as [<- | [<- | []]]; discriminate V.
  - destruct I as [<- | []]; discriminate V.
  - destruct I as [<- | I]; [discriminate V | exact I].
Qed.

(** The response is buffered: while only data arrives nothing is
    signalled, and when the response ends the parser is given the
    concatenation of the chunks, however the body was cut into chunks. *)
Theorem response_is_buffered (self : Strategy) (req : Request)
    (options : jsval) (requestId issueInstant : string)
    (chunks : list string) (started : list effect) :
  authenticate self req options requestId issueInstant = Ok started ->
  existsb is_request started = true ->
  attempt self req options requestId issueInstant (map Data chunks) = Ok started
  /\ attempt self req options requestId issueInstant
       (map Data chunks ++ [End])%list
     = Ok (started ++ _validate self req (String.concat EmptyString chunks))%list.
Proof.
  intros A R. unfold attempt. rewrite A. cbn [bind]. rewrite R. split.
  - rewrite <- (app_nil_r (map Data chunks)), run_data. cbn [run].
    rewrite app_nil_r. reflexivity.
  - rewrite run_data. cbn [run handle append]. rewrite app_nil_r. reflexivity.
Qed.

Lemma run_verdicts (self : Strategy) (req : Request)
    (events : list TransportEvent) :
  forall body, forallb is_verdict (run self req body events) = true.
Proof.
  intros body. apply forallb_forall. intros e I.
  destruct (run_sources _ _ _ _ _ I) as [[m [_ ->]] | [body' V]]; [reflexivity|].
  destruct (_validate_sources _ _ _ _ V)
    as [[err [_ ->]] | [[p [c [_ [_ ->]]]] | [p [x [_ [_ [_ ->]]]]]]];
    [reflexivity | apply outcome_of_verdict | reflexivity].
Qed.

(** An attempt that issues the validation call issues it once, first, and
    signals nothing but [success], [fail] and [error] afterwards, whatever
    the transport does: it never redirects, logs out or calls the server
    again. *)
Theorem validating_attempt_effects (self : Strategy) (req : Request)
    (options : jsval) (requestId issueInstant : string)
    (events : list TransportEvent) (effects : list effect) :
  attempt self req options requestId issueInstant events = Ok effects ->
  existsb is_request effects = true ->
  exists r verdicts,
    effects = ERequest r :: verdicts
    /\ forallb is_verdict verdicts = true.
Proof.
  unfold attempt.
  destruct (authenticate self req options requestId issueInstant)
    as [started|x] eqn:A; cbn [bind]; [|discriminate].
  destruct (authenticate_shapes _ _ _ _ _ _ A) as [[l ->]|[[l ->]|[r ->]]];
    cbn [existsb is_request orb]; intros H R; injection H as <-;
    try discriminate R.
  exists r, (run self req EmptyString events). split; [reflexivity|].
  apply run_verdicts.
Qed.

(** Where a verdict comes from: the [error] event of the request gives a
    failure with the transport's message; a parser's own report gives an
    error; one call of [verified] by the verify function, on a profile the
    parser accepted, gives what that call signals; and a verify function
    that throws inside the [try] of an XML parser gives the error
    [Authentication failed] of its [catch]. *)
Theorem verdict_sources (self : Strategy) (req : Request) (options : jsval)
    (requestId issueInstant : string) (events : list TransportEvent)
    (effects : list effect) (e : effect) :
  attempt self req options requestId issueInstant events = Ok effects ->
  In e effects ->
  is_verdict e = true ->
  (exists message,
     In (ErrorEvent message) events
     /\ e = EFail (new_Error (to_string (or_else message (JStr "Unknown error")))))
  \/ (exists body err,
        validate (validator self) body = Verified err /\ e = EError err)
  \/ (exists body profile call,
        validate (validator self) body = CallVerify profile
        /\ In call (calls (_verify self
                             (if truthy (_passReqToCallback self)
                              then Some req else None)
                             profile))
        /\ e = outcome_of call)
  \/ (exists body profile x,
        validate (validator self) body = CallVerify profile
        /\ thrown (_verify self
                     (if truthy (_passReqToCallback self) then Some req else None)
                     profile) = Some x
        /\ validator self <> Cas10
        /\ e = EError (new_Error "Authentication failed")).
Proof.
  intros A I V.
  pose proof (attempt_verdict_in_run _ _ _ _ _ _ _ _ A I V) as R.
  destruct (run_sources _ _ _ _ _ R) as [T | [body B]]; [left; exact T|].
  right.
  destruct (_validate_sources _ _ _ _ B)
    as [[err S] | [[profile [call S]] | [profile [x [S [X [K E]]]]]]].
  - left. eauto.
  - right. left. eauto.
  - right. right. exists body, profile, x. repeat split; try assumption.
    intros C. rewrite C in K. discriminate K.
Qed.

(** Success is signalled only for a user the verify function vouched
    for: it called [verified] with a falsy [err] and that truthy user, on
    a profile the parser accepted.  No transport event and no parser
    report yields a success. *)
Theorem success_needs_verify (self : Strategy) (req : Request)
    (options : jsval) (requestId issueInstant : string)
    (events : list TransportEvent) (effects : list effect)
    (user info : jsval) :
  attempt self req options requestId issueInstant events = Ok effects ->
  In (ESuccess user info) effects ->
  truthy user = true
  /\ exists body profile err,
       validate (validator self) body = CallVerify profile
       /\ In (err, user, info)
            (calls (_verify self
                      (if truthy (_passReqToCallback self) then Some req else None)
                      profile))
       /\ truthy err = false.
Proof.
  intros A I.
  pose proof (attempt_verdict_in_run _ _ _ _ _ _ _ _ A I eq_refl) as R.
  destruct (run_sources _ _ _ _ _ R) as [[m [_ E]] | [body B]]; [discriminate E|].
  destruct (_validate_sources _ _ _ _ B)
    as [[err [_ E]] | [[profile [[[err user'] info'] [V [C E]]]]
                      | [profile [x [_ [_ [_ E]]]]]]];
    [discriminate E | | discriminate E].
  unfold outcome_of in E.
  destruct (truthy err) eqn:TE; [discriminate E|].
  destruct (truthy user') eqn:TU; [|discriminate E].
  injection E as -> ->. split; [exact TU|].
  exists body, profile, err. auto.
Qed.

End Further.

(* ------------------------------------------------------------------ *)
(** ** The statements on concrete inputs                               *)
(* ------------------------------------------------------------------ *)

Module Worked.
Import Sample.

(** C1, on the three kinds of denial: [no], an [authenticationFailure]
    with code [INVALID_TICKET], a SAML [RequestDenied] status. *)
Lemma explicit_denial_is_error_witness :
  _validate (strategy Cas10) with_ticket ("no" ++ nl)
  = [EError (new_Error "Authentication failed")]
  /\ _validate (strategy Cas30) with_ticket cas3_failure
     = [EError (new_Error "Authentication failed INVALID_TICKET")]
  /\ _validate (strategy Saml) with_ticket saml_denied
     = [EError (new_Error "Authentication failed")].
Proof.
  split; [|split].
  - apply (explicit_denial_is_error (strategy Cas10) with_ticket ("no" ++ nl) None).
    apply denies_cas1. reflexivity.
  - apply (explicit_denial_is_error (strategy Cas30) with_ticket cas3_failure
             (Some (JStr "INVALID_TICKET"))).
    eapply (denies_cas3 cas3_failure _ _ [("code", JStr "INVALID_TICKET")]);
      reflexivity.
  - apply (explicit_denial_is_error (strategy Saml) with_ticket saml_denied None).
    eapply (denies_saml saml_denied _ "samlp:RequestDenied"); reflexivity.
Defined.

(** C1 as stated fails: the server says [no] and the attempt ends in
    [self.error], not in [self.fail]. *)
Lemma denial_is_not_a_failure :
  denies Cas10 ("no" ++ nl) None
  /\ _validate (strategy Cas10) with_ticket ("no" ++ nl)
     = [EError (new_Error "Authentication failed")]
  /\ ~ (exists info,
          _validate (strategy Cas10) with_ticket ("no" ++ nl) = [EFail info]).
Proof.
  split; [apply denies_cas1; reflexivity|].
  split; [reflexivity|].
  intros [info H]. discriminate H.
Qed.

(** C2 as stated fails: the body [yes\n] is not a malformed response; the
    verify function is called with the empty principal. *)
Lemma yes_alone_is_accepted :
  validate_cas1 ("yes" ++ nl) = CallVerify (JStr EmptyString)
  /\ validate_cas1 ("yes" ++ nl)
     <> Verified (new_Error "The response from the server was bad").
Proof. split; [reflexivity | discriminate]. Qed.

(** C2: the second line is handed over untrimmed. *)
Example second_line_is_not_trimmed :
  validate_cas1 ("yes" ++ nl ++ " alice " ++ nl) = CallVerify (JStr " alice ").
Proof. reflexivity. Qed.

(** C3, on a refused connection. *)
Lemma transport_error_is_fail_witness :
  authenticate (strategy Cas10) with_ticket JUndef "id" "now" = Ok [validation_call]
  /\ attempt (strategy Cas10) with_ticket JUndef "id" "now"
       [ErrorEvent (JStr "connect ECONNREFUSED")]
     = Ok [validation_call; EFail (new_Error "connect ECONNREFUSED")].
Proof.
  assert (A : authenticate (strategy Cas10) with_ticket JUndef "id" "now"
              = Ok [validation_call]) by reflexivity.
  split; [exact A|].
  exact (proj1 (transport_error_is_fail (strategy Cas10) with_ticket JUndef
                  "id" "now" [] (JStr "connect ECONNREFUSED") [validation_call]
                  A eq_refl)).
Defined.

(** C3 as stated fails: a refused connection ends in [self.fail]; no error
    is signalled. *)
Lemma transport_error_is_not_an_error :
  attempt (strategy Cas10) with_ticket JUndef "id" "now"
    [ErrorEvent (JStr "connect ECONNREFUSED")]
  = Ok [validation_call; EFail (new_Error "connect ECONNREFUSED")]
  /\ ~ (exists err,
          In (EError err)
             [validation_call; EFail (new_Error "connect ECONNREFUSED")]).
Proof.
  split; [reflexivity|].
  intros [err [H|[H|[]]]]; discriminate H.
Qed.

(** C4, on the shapes of a CAS3.0 response: a failure with a code, a
    success, neither, a body that is not XML, the empty body, and an empty
    failure element next to a success. *)
Lemma cas3_parser_witness :
  validate_cas3 cas3_failure
  = Verified (new_Error "Authentication failed INVALID_TICKET")
  /\ validate_cas3 cas3_success = CallVerify (JObj [("user", JStr "bob")])
  /\ validate_cas3 cas3_empty = Verified (new_Error "Authentication failed")
  /\ validate_cas3 "yes"
     = Verified (new_Error "The response from the server was bad")
  /\ validate_cas3 EmptyString = Verified (new_Error "Authentication failed")
  /\ validate_cas3 (P := More.platform) More.cas3_empty_failure
     = CallVerify (JObj [("user", JStr "bob")]).
Proof.
  destruct (cas3_parser (P := platform)) as [R [N _]].
  destruct (cas3_parser (P := More.platform)) as [_ [_ E]].
  split; [exact (R cas3_failure)|].
  split; [exact (R cas3_success)|].
  split; [exact (R cas3_empty)|].
  split; [exact (R "yes")|].
  split; [exact (N EmptyString eq_refl)|].
  exact (E More.cas3_empty_failure More.cas3_empty_failure_parsed
           (JObj [("user", JStr "bob")]) eq_refl eq_refl eq_refl).
Defined.

(** C4 as stated fails twice.  The empty body is not well-formed XML, yet
    xml2js reports no error and hands over [null]: the parser answers
    [Authentication failed], not the bad-response error.  And a response
    that holds an [authenticationFailure] element, an empty one, next to an
    [authenticationSuccess] is accepted. *)
Lemma empty_body_is_not_a_bad_response :
  parseString EmptyString = XmlResult JNull
  /\ validate_cas3 EmptyString = Verified (new_Error "Authentication failed")
  /\ validate_cas3 EmptyString
     <> Verified (new_Error "The response from the server was bad")
  /\ More.parseString More.cas3_empty_failure
     = XmlResult More.cas3_empty_failure_parsed
  /\ get_path More.cas3_empty_failure_parsed
       ["serviceresponse"; "authenticationfailure"]
     = Ok (JStr EmptyString)
  /\ validate_cas3 (P := More.platform) More.cas3_empty_failure
     = CallVerify (JObj [("user", JStr "bob")]).
Proof.
  split; [reflexivity|]. split; [reflexivity|]. split; [discriminate|].
  repeat split.
Qed.





(** C6: an [error] after the [end] adds a failure to the success. *)
Example error_after_end_signals_again :
  attempt (strategy Cas10) with_ticket JUndef "id" "now"
    [Data ("yes" ++ nl ++ "alice" ++ nl); End; ErrorEvent (JStr "socket hang up")]
  = Ok [validation_call; ESuccess (JStr "alice") JUndef;
        EFail (new_Error "socket hang up")].
Proof. reflexivity. Qed.

(** C6: one [end], and a verify function that calls back and then
    throws: the [catch] of the plain-XML parser signals an error after the
    success. *)
Example throwing_verify_signals_twice :
  attempt (P := More.platform) More.throwing with_ticket JUndef "id" "now"
    [Data cas3_success; End]
  = Ok [ERequest
          (mkClientRequest https "GET" (JStr "cas.example.org") JNull
             "/cas/p3/serviceValidate?ticket=ST-1&service=https%3A%2F%2Fapp.example.org%2Fprivate%3Flang%3Den"
             None);
        ESuccess (JObj [("user", JStr "bob")]) JUndef;
        EError (new_Error "Authentication failed")].
Proof. reflexivity. Qed.



(** C7: when the ticket is the only parameter, no query string is left. *)
Example service_drops_empty_query :
  service (strategy Cas10) (request "?ticket=ST-1" [("ticket", JStr "ST-1")])
  = Ok "https://app.example.org/private".
Proof. reflexivity. Qed.

(** C7: the other parameters are written anew: a parameter without value
    comes back with an equals sign. *)
Example service_rewrites_parameters :
  service (strategy Cas10) with_flag = Ok "https://app.example.org/private?flag=".
Proof. reflexivity. Qed.

(** C8, on no verify function, on version [CAS2.0] and on version
    [CAS3.0]. *)
Lemma construct_checks_witness :
  construct (ArgOptions (options (JStr "CAS3.0") JUndef)) None
  = Throw (Error "cas authentication strategy requires a verify function")
  /\ (exists e,
        construct (ArgOptions (options (JStr "CAS2.0") JUndef)) (Some accept)
        = Throw e)
  /\ supported (version (strategy Cas30)).
Proof.
  destruct (@construct_checks platform) as [V [U [_ S]]].
  split; [apply V|]. split.
  - apply U. intros [H|H]; discriminate H.
  - apply (S (ArgOptions (options (JStr "CAS3.0") JUndef)) (Some accept)).
    reflexivity.
Defined.

(** C8 as stated fails: the empty string is none of the two versions, and
    construction succeeds, as for [CAS1.0]. *)
Lemma falsy_version_is_accepted :
  ~ supported (Options.version (options (JStr EmptyString) JUndef))
  /\ construct (ArgOptions (options (JStr EmptyString) JUndef)) (Some accept)
     = Ok (strategy Cas10).
Proof.
  split; [intros [H|H]; discriminate H | reflexivity].
Qed.

(** C8: so does construction without a version. *)
Example missing_version_is_cas1 :
  construct (ArgOptions (options JUndef JUndef)) (Some accept) = Ok (strategy Cas10).
Proof. reflexivity. Qed.

(** C9, on login parameters [{renew: 'true', foo: ''}]. *)
Lemma login_redirect_witness :
  authenticate (strategy Cas10) without_ticket renew_and_foo "id" "now"
  = Ok [ERedirect
          "https://cas.example.org/cas/login?service=https%3A%2F%2Fapp.example.org%2Fprivate&renew=true"]
  /\ has_key "foo"
       (add_login_params
          (JObj [("renew", JStr "true"); ("foo", JStr EmptyString)])
          [("service", JStr "https://app.example.org/private")])
     = false.
Proof.
  assert (S : service (strategy Cas10) without_ticket
              = Ok "https://app.example.org/private") by (vm_compute; reflexivity).
  destruct (login_redirect (strategy Cas10) without_ticket renew_and_foo
              "id" "now" JUndef "https://app.example.org/private"
              (snd (located JNull (JStr "/private") JNull []))
              (snd (located (JStr "cas.example.org") (JStr "/cas/login") JNull []))
              (JObj [("renew", JStr "true"); ("foo", JStr EmptyString)])
              eq_refl eq_refl S eq_refl eq_refl eq_refl eq_refl eq_refl)
    as [A [_ [K _]]].
  split; [exact A|]. exact (K "foo").
Defined.

(** C9 as stated fails twice.  A login parameter named [service] replaces
    the canonical service URL in the redirect.  And when [ssoBaseURL]
    carries a query string, the redirect carries neither [service] nor
    the login parameters: [url.format] keeps the query string that was
    parsed. *)
Lemma service_is_not_always_sent :
  service (strategy Cas10) without_ticket = Ok "https://app.example.org/private"
  /\ authenticate (strategy Cas10) without_ticket own_service "id" "now"
     = Ok [ERedirect
             "https://cas.example.org/cas/login?service=https%3A%2F%2Felsewhere.example.org%2F"]
  /\ authenticate More.with_tenant without_ticket renew_and_foo "id" "now"
     = Ok [ERedirect "https://cas.example.org/cas?tenant=a/login"].
Proof. repeat split. Qed.

(** C9: the parameters go out in the order JavaScript enumerates them,
    integer-like names first. *)
Example login_parameters_are_enumerated :
  authenticate (strategy Cas10) without_ticket
    (JObj [("loginParams", JObj [("renew", JStr "true"); ("7", JStr "x")])])
    "id" "now"
  = Ok [ERedirect
          "https://cas.example.org/cas/login?7=x&service=https%3A%2F%2Fapp.example.org%2Fprivate&renew=true"].
Proof. reflexivity. Qed.

(** C10, on a failure node without attributes and on one whose only
    attribute is [reason]. *)
Lemma cas3_failure_without_code_witness :
  validate_cas3 cas3_failure_no_attributes
  = Verified (new_Error "Authentication failed")
  /\ validate_cas3 cas3_failure_no_code
     = Verified (new_Error "Authentication failed undefined").
Proof.
  split.
  - destruct (cas3_failure_without_code (P := platform) cas3_failure_no_attributes
                (serviceresponse
                   [("authenticationfailure", JStr "Ticket ST-1 not recognized")])
                (JStr "Ticket ST-1 not recognized") eq_refl eq_refl)
      as [B _].
    apply B. reflexivity.
  - destruct (cas3_failure_without_code (P := platform) cas3_failure_no_code
                (serviceresponse [("authenticationfailure", reason_only)])
                reason_only eq_refl eq_refl)
      as [_ A].
    apply (A [("reason", JStr "expired")]); reflexivity.
Defined.

(** C10 as stated fails: the failure node has attributes but no [code];
    nothing is thrown and the message is not the generic one. *)
Lemma failure_without_code_is_not_generic :
  parseString cas3_failure_no_code
  = XmlResult (serviceresponse [("authenticationfailure", reason_only)])
  /\ node (serviceresponse [("authenticationfailure", reason_only)])
          "authenticationfailure"
     = Some reason_only
  /\ get_path reason_only ["$"; "code"] = Ok JUndef
  /\ validate_cas3 cas3_failure_no_code
     = Verified (new_Error "Authentication failed undefined")
  /\ validate_cas3 cas3_failure_no_code
     <> Verified (new_Error "Authentication failed").
Proof.
  repeat (split; [reflexivity|]). discriminate.
Qed.

End Worked.

(* ------------------------------------------------------------------ *)
(** ** The further properties on concrete inputs                       *)
(* ------------------------------------------------------------------ *)

Module WorkedFurther.
Import Sample.

(** A response that holds both nodes is reported as the failure. *)
Lemma cas3_failure_wins_witness :
  validate_cas3 (P := More.platform) More.cas3_both
  = Verified (new_Error "Authentication failed INVALID_TICKET").
Proof.
  exact (proj1 (cas3_failure_wins (P := More.platform) More.cas3_both
                  More.cas3_both_parsed
                  (JObj [("_", JStr "Ticket ST-1 not recognized");
                         ("$", JObj [("code", JStr "INVALID_TICKET")])])
                  eq_refl eq_refl)).
Defined.

(** An empty failure element is no failure node: the success next to it
    is accepted. *)
Example cas3_empty_failure_is_accepted :
  node More.cas3_empty_failure_parsed "authenticationfailure" = None
  /\ validate_cas3 (P := More.platform) More.cas3_empty_failure
     = CallVerify (JObj [("user", JStr "bob")]).
Proof. split; reflexivity. Qed.


Example saml_success_is_accepted :
  validate_saml (P := More.platform) More.saml_success
  = CallVerify
      (JObj [("user", JStr "carol");
             ("attributes",
              JObj [("uid", JStr "carol");
                    ("edupersonaffiliation", JStr "staff")])]).
Proof. reflexivity. Qed.

(** A response with a single attribute: [_.each] walks the fields of the
    one attribute node, the first of which is its attribute object, and
    that is no attribute node. *)
Lemma saml_bad_attribute_fails_witness :
  In (JObj [("AttributeName", JStr "uid")])
     (each_values (saml_attribute "uid" "carol"))
  /\ attribute_ok (JObj [("AttributeName", JStr "uid")]) = false
  /\ validate_saml (P := More.platform) More.saml_one_attribute
     = Verified (new_Error "Authentication failed").
Proof.
  split; [left; reflexivity|]. split; [reflexivity|].
  apply (saml_bad_attribute_fails (P := More.platform) More.saml_one_attribute
           More.saml_one_attribute_parsed (saml_attribute "uid" "carol")
           (JObj [("AttributeName", JStr "uid")]));
    [reflexivity | reflexivity | left; reflexivity | reflexivity].
Defined.

(** A body that is not XML, under the plain-XML parser. *)
Lemma bad_response_iff_malformed_witness :
  validate Cas30 "yes"
  = Verified (new_Error "The response from the server was bad")
  <-> parseString "yes" = XmlError.
Proof.
  apply (bad_response_iff_malformed (P := platform) Cas30 "yes"). discriminate.
Defined.

(** The options of the examples construct a strategy; options whose
    [ssoBaseURL] cannot be parsed do not. *)
Lemma construct_succeeds_iff_witness :
  (exists self,
     construct (ArgOptions (options (JStr "CAS3.0") JUndef)) (Some accept) = Ok self)
  /\ ~ (exists self,
          construct (ArgOptions More.unparsable) (Some accept) = Ok self)
  /\ construct (ArgOptions More.unparsable) (Some accept) = Throw TypeError.
Proof.
  split; [|split; [|reflexivity]].
  - apply (proj1 (construct_succeeds_iff (P := platform)
                    (ArgOptions (options (JStr "CAS3.0") JUndef)) (Some accept))).
    exists (options (JStr "CAS3.0") JUndef), accept,
           "https://cas.example.org/cas", sso.
    repeat split. right. reflexivity.
  - intros H.
    apply (proj1 (construct_succeeds_iff (P := platform)
                    (ArgOptions More.unparsable) (Some accept))) in H.
    destruct H as [o [f [s [u [A [_ [B [U _]]]]]]]].
    injection A as <-. injection B as <-. discriminate U.
Defined.

(** The SAML strategy of the examples. *)
Lemma construct_invariant_witness :
  construct (ArgOptions (options (JStr "CAS3.0") (JBool true))) (Some accept)
  = Ok (strategy Saml)
  /\ name (strategy Saml) = "cas"
  /\ _validateUri (strategy Saml) = "/samlValidate".
Proof.
  assert (C : construct (ArgOptions (options (JStr "CAS3.0") (JBool true)))
                (Some accept) = Ok (strategy Saml)) by reflexivity.
  destruct (construct_invariant (P := platform) _ _ _ C)
    as [N [_ [[V _] | [[_ [T _]] | [_ [_ [U _]]]]]]].
  - discriminate V.
  - discriminate T.
  - split; [exact C|]. split; [exact N | exact U].
Defined.

(** [service] returns for the request of the examples, and throws what
    [url.resolve] throws for a URL it rejects. *)
Lemma service_returns_iff_witness :
  (exists location, service (strategy Cas10) with_ticket = Ok location)
  /\ service (strategy Cas10) More.unresolvable = Throw TypeError
  /\ url_resolve "https://app.example.org" "//[x" = Throw TypeError.
Proof.
  split.
  - apply (proj1 (service_returns_iff (P := platform) (strategy Cas10) with_ticket)).
    exists "https://app.example.org", "/private?ticket=ST-1&lang=en",
           "https://app.example.org/private?ticket=ST-1&lang=en",
           (snd (located (JStr "app.example.org") (JStr "/private")
                   (JStr "?ticket=ST-1&lang=en")
                   [("ticket", JStr "ST-1"); ("lang", JStr "en")])).
    repeat split.
  - assert (S : service (P := platform) (strategy Cas10) More.unresolvable
                = Throw TypeError) by reflexivity.
    split; [exact S|].
    destruct (proj2 (service_returns_iff (P := platform) (strategy Cas10)
                       More.unresolvable) TypeError S)
      as [[B _] | [base [relative [B [R [V | [resolved [V _]]]]]]]].
    + discriminate B.
    + injection B as <-. injection R as <-. exact V.
    + injection B as <-. injection R as <-. discriminate V.
Defined.

(** A request with a ticket and no relay state. *)
Lemma authenticate_decides_witness :
  truthy (obj_get "ticket"
            (query (snd (located JNull (JStr "/private")
                           (JStr "?ticket=ST-1&lang=en")
                           [("ticket", JStr "ST-1"); ("lang", JStr "en")]))))
  = true
  /\ exists r,
       [validation_call] = [ERequest r].
Proof.
  destruct (authenticate_decides (P := platform) (strategy Cas10) with_ticket
              JUndef "id" "now" [validation_call] eq_refl)
    as [relayState [G [[R _] | [_ [parsedReq [U [[T _] | [T E]]]]]]]].
  - injection G as <-. discriminate R.
  - injection U as <-. discriminate T.
  - injection U as <-. split; [exact T | exact E].
Defined.


(** Without [serverBaseURL] the attempt throws the [TypeError] of
    [service], unless the request carries a relay state. *)
Example authenticate_without_server_base :
  authenticate More.no_server_base with_ticket JUndef "id" "now" = Throw TypeError
  /\ service More.no_server_base with_ticket = Throw TypeError
  /\ authenticate More.no_server_base with_relay_state JUndef "id" "now"
     = Ok [ELogout;
           ERedirect
             "https://cas.example.org/cas/logout?_eventId=next&RelayState=abc"].
Proof. repeat split. Qed.

(** A request that Express has not prepared: [req.query] is missing. *)
Example authenticate_without_query :
  authenticate (strategy Cas10)
    (mkRequest (JStr "/private") (JStr "/private") JUndef) JUndef "id" "now"
  = Throw TypeError.
Proof. reflexivity. Qed.

(** A site whose [ssoBaseURL] is [https://cas.example.org/cas?tenant=a]. *)
Lemma login_redirect_keeps_search_witness :
  authenticate More.with_tenant without_ticket renew_and_foo "id" "now"
  = Ok [ERedirect "https://cas.example.org/cas?tenant=a/login"]
  /\ [ERedirect "https://cas.example.org/cas?tenant=a/login"]
     = [ERedirect
          (format_location (JStr "https:") (JBool true) JNull
                           (JStr "cas.example.org") JNull
                           (JStr "cas.example.org") (JStr "/cas")
           ++ led_by "?" (escape_hashes "?tenant=a/login")
           ++ EmptyString)].
Proof.
  assert (A : authenticate (P := platform) More.with_tenant without_ticket
                renew_and_foo "id" "now"
              = Ok [ERedirect "https://cas.example.org/cas?tenant=a/login"])
    by reflexivity.
  split; [exact A|].
  exact (login_redirect_keeps_search (P := platform) More.with_tenant
           without_ticket renew_and_foo "id" "now" JUndef
           (snd (located JNull (JStr "/private") JNull []))
           (snd (located (JStr "cas.example.org") (JStr "/cas")
                   (JStr "?tenant=a/login") [("tenant", JStr "a/login")]))
           _ A eq_refl eq_refl eq_refl eq_refl eq_refl eq_refl).
Defined.


(** The SAML call for [with_ticket]. *)
Lemma validation_call_target_witness :
  authenticate (strategy Saml) with_ticket JUndef "id" "now"
  = Ok [ERequest More.saml_call]
  /\ to_host More.saml_call = JStr "cas.example.org"
  /\ method More.saml_call = "POST".
Proof.
  assert (A : authenticate (P := platform) (strategy Saml) with_ticket JUndef
                "id" "now" = Ok [ERequest More.saml_call]) by reflexivity.
  destruct (validation_call_target (P := platform) _ _ _ _ _ _ More.saml_call A
              (or_introl eq_refl)) as [_ [H [_ [M _]]]].
  split; [exact A|]. split; [exact H | exact M].
Defined.

(** CAS1.0 options that ask for SAML and name the path [/custom]. *)
Lemma cas1_with_saml_mixes_protocols_witness :
  construct (ArgOptions More.custom_options) (Some accept) = Ok More.custom_path
  /\ validator More.custom_path = Cas10
  /\ authenticate More.custom_path with_ticket JUndef "id" "now"
     = Ok [ERequest More.custom_call]
  /\ exists location parsedReq,
       service More.custom_path with_ticket = Ok location
       /\ parse_url_query (url with_ticket) = Ok parsedReq
       /\ method More.custom_call = "POST"
       /\ to_path More.custom_call
          = format_location JUndef JUndef JUndef JUndef JUndef JUndef
              (JStr ("/cas" ++ "/custom"))
            ++ "?TARGET=" ++ Querystring.escape location
       /\ written More.custom_call
          = Some (util_format soap_template
                    [JStr "id"; JStr "now"; obj_get "ticket" (query parsedReq)]).
Proof.
  assert (C : construct (P := platform) (ArgOptions More.custom_options)
                (Some accept) = Ok More.custom_path) by reflexivity.
  assert (A : authenticate (P := platform) More.custom_path with_ticket JUndef
                "id" "now" = Ok [ERequest More.custom_call]) by reflexivity.
  destruct (cas1_with_saml_mixes_protocols (P := platform) _ _ _ C
              eq_refl eq_refl) as [V [_ R]].
  split; [exact C|]. split; [exact V|]. split; [exact A|].
  exact (R with_ticket JUndef "id" "now" _ A).
Defined.

(** The reply [yes\nalice\n] cut into three chunks. *)
Lemma response_is_buffered_witness :
  attempt (strategy Cas10) with_ticket JUndef "id" "now"
    [Data "ye"; Data ("s" ++ nl ++ "al"); Data ("ice" ++ nl)]
  = Ok [validation_call]
  /\ attempt (strategy Cas10) with_ticket JUndef "id" "now"
       [Data "ye"; Data ("s" ++ nl ++ "al"); Data ("ice" ++ nl); End]
     = Ok [validation_call; ESuccess (JStr "alice") JUndef].
Proof.
  exact (response_is_buffered (P := platform) (strategy Cas10) with_ticket JUndef
           "id" "now" ["ye"; "s" ++ nl ++ "al"; "ice" ++ nl] [validation_call]
           eq_refl eq_refl).
Defined.

(** A response that ends, then a socket error, then a second end. *)
Lemma validating_attempt_effects_witness :
  exists r verdicts,
    [validation_call; EError (new_Error "The response from the server was bad");
     EFail (new_Error "socket hang up");
     EError (new_Error "The response from the server was bad")]
    = ERequest r :: verdicts
    /\ forallb is_verdict verdicts = true.
Proof.
  apply (validating_attempt_effects (P := platform) (strategy Cas10) with_ticket
           JUndef "id" "now" [End; ErrorEvent (JStr "socket hang up"); End]);
    reflexivity.
Defined.

(** The failure signalled after a socket error. *)
Lemma verdict_sources_witness :
  (exists message,
     In (ErrorEvent message) [ErrorEvent (JStr "socket hang up")]
     /\ EFail (new_Error "socket hang up")
        = EFail (new_Error (to_string (or_else message (JStr "Unknown error")))))
  \/ (exists body err,
        validate (validator (strategy Cas10)) body = Verified err
        /\ EFail (new_Error "socket hang up") = EError err)
  \/ (exists body profile call,
        validate (validator (strategy Cas10)) body = CallVerify profile
        /\ In call (calls (_verify (strategy Cas10)
                             (if truthy (_passReqToCallback (strategy Cas10))
                              then Some with_ticket else None)
                             profile))
        /\ EFail (new_Error "socket hang up") = outcome_of call)
  \/ (exists body profile x,
        validate (validator (strategy Cas10)) body = CallVerify profile
        /\ thrown (_verify (strategy Cas10)
                     (if truthy (_passReqToCallback (strategy Cas10))
                      then Some with_ticket else None)
                     profile) = Some x
        /\ validator (strategy Cas10) <> Cas10
        /\ EFail (new_Error "socket hang up")
           = EError (new_Error "Authentication failed")).
Proof.
  apply (verdict_sources (P := platform) (strategy Cas10) with_ticket JUndef
           "id" "now" [ErrorEvent (JStr "socket hang up")]
           [validation_call; EFail (new_Error "socket hang up")]);
    [reflexivity | right; left; reflexivity | reflexivity].
Defined.

(** The error signalled after a verify function threw under the plain-XML
    parser. *)
Example catch_is_a_source :
  In (EError (new_Error "Authentication failed"))
     (_validate (P := More.platform) More.throwing with_ticket cas3_success)
  /\ thrown (More.accept_then_throw None (JObj [("user", JStr "bob")]))
     = Some (Error "boom").
Proof. split; [right; left; reflexivity | reflexivity]. Qed.

(** The success signalled for [alice]. *)
Lemma success_needs_verify_witness :
  truthy (JStr "alice") = true
  /\ exists body profile err,
       validate (validator (strategy Cas10)) body = CallVerify profile
       /\ In (err, JStr "alice", JUndef)
            (calls (_verify (strategy Cas10)
                      (if truthy (_passReqToCallback (strategy Cas10))
                       then Some with_ticket else None)
                      profile))
       /\ truthy err = false.
Proof.
  apply (success_needs_verify (P := platform) (strategy Cas10) with_ticket JUndef
           "id" "now" [Data ("yes" ++ nl ++ "alice" ++ nl); End]
           [validation_call; ESuccess (JStr "alice") JUndef]);
    [reflexivity | right; left; reflexivity].
Defined.

End WorkedFurther.
